(** * firefight: the permission-denied simulator of [src/firefight.js]

    A shallow embedding of the simulator's transcript parser
    ([processTraceLine]), of its error classifier ([isPermissionDenied]),
    of the per-request orchestration ([_simulateCalls], [_simulateCall])
    and of the promise chain that serialises the simulations
    ([_simulate], [simulationQueue]), with the properties the
    specification states about them.

    Conventions of the embedding.
    - A JavaScript string is a [string] of 8-bit characters; a character
      outside ASCII is the sequence of its UTF-8 bytes.  The character
      classes of the regular expressions are their ASCII part: [\s] is
      tab, line feed, vertical tab, form feed, carriage return and space;
      [.] is everything but line feed and carriage return; [\d] is 0-9.
    - A JavaScript exception is an explicit result, [Throws e].
    - The module-level variables [simulationConsoleLogs] and
      [lastTestIndex] are the two fields of the parser [state], passed
      explicitly; [simulationQueue] is passed explicitly too.
    - The Firebase client, the token generator and the console are
      outside the source: a call into the client is a parameter, given
      by what it does to the parser state and by how it ends. *)

From Stdlib Require Import String Ascii List Lia Arith Bool.
From stdpp Require Import list strings.
Import ListNotations.
Open Scope string_scope.
Open Scope nat_scope.

(** ** JavaScript values, exceptions and results *)

Module JS.

(** The values a property of an error object can hold. *)
Inductive value : Type :=
| Undefined
| Null
| Bool (b : bool)
| Num (n : Z)
| Str (s : string).

(** [if (v)], [v || w], [v && w] coerce with ToBoolean.  Numbers are the
    integers; [NaN], which is falsy too, is not among them. *)
Definition truthy (v : value) : bool :=
  match v with
  | Undefined | Null => false
  | Bool b => b
  | Num n => negb (Z.eqb n 0)
  | Str s => negb (String.eqb s "")
  end.

(** What a [throw] or a rejected promise carries.  [undefined] and
    [null] have no properties; any other thrown value is seen through
    its [code] and [message] properties ([Undefined] when it has none)
    and through [text], what a template literal [`${e}`] renders it as.
    [ThrownOpaque] is a value that has no string conversion: a symbol, an
    object without [toString] such as [Object.create(null)]. *)
Inductive thrown : Type :=
| ThrownUndefined
| ThrownNull
| ThrownObject (code message : value) (text : string)
| ThrownOpaque (code message : value).

(** The [TypeError] the runtime raises, an [Error] object with a
    message and no code.  The wording of the message is the engine's. *)
Definition TypeError (msg : string) : thrown :=
  ThrownObject Undefined (Str msg) ("TypeError: " +:+ msg).

(** The outcome of running a piece of code: it returns or it throws. *)
Inductive result (A : Type) : Type :=
| Returns (a : A)
| Throws (e : thrown).
Arguments Returns {A} a.
Arguments Throws {A} e.

(** [`${e}`]: the string of the value, or the [TypeError] of a value that
    cannot be converted to one. *)
Definition render (e : thrown) : result string :=
  match e with
  | ThrownUndefined => Returns "undefined"
  | ThrownNull => Returns "null"
  | ThrownObject _ _ text => Returns text
  | ThrownOpaque _ _ =>
      Throws (TypeError "Cannot convert object to primitive value")
  end.

#[export] Instance result_ret : MRet result := fun A a => Returns a.
#[export] Instance result_bind : MBind result := fun A B f m =>
  match m with
  | Returns a => f a
  | Throws e => Throws e
  end.

(** *** Strings *)

Definition is_space (c : ascii) : bool :=
  let n := nat_of_ascii c in
  ((9 <=? n) && (n <=? 13)) || (n =? 32).

Definition is_digit (c : ascii) : bool :=
  let n := nat_of_ascii c in (48 <=? n) && (n <=? 57).

Definition is_line_terminator (c : ascii) : bool :=
  let n := nat_of_ascii c in (n =? 10) || (n =? 13).

(** The longest prefix of [s] whose characters satisfy [p], and the rest. *)
Fixpoint span (p : ascii -> bool) (s : string) : string * string :=
  match s with
  | EmptyString => ("", "")
  | String c s' =>
      if p c then let '(a, b) := span p s' in (String c a, b)
      else ("", s)
  end.

(** [s] without the prefix [p], when it starts with it. *)
Fixpoint strip_prefix (p s : string) : option string :=
  match p, s with
  | EmptyString, _ => Some s
  | String a p', String b s' =>
      if Ascii.eqb a b then strip_prefix p' s' else None
  | String _ _, EmptyString => None
  end.

(** [s.startsWith(p)] *)
Definition startsWith (s p : string) : bool :=
  match strip_prefix p s with Some _ => true | None => false end.

(** [s.toLowerCase()], on the letters A-Z.  The other characters are kept.
    The Unicode mapping also changes letters outside ASCII; the only one
    it takes to a single ASCII letter is the Kelvin sign, to [k], so a
    comparison of the result with the word [permission_denied], which
    has no [k], comes out the same. *)
Definition lower (c : ascii) : ascii :=
  let n := nat_of_ascii c in
  if (65 <=? n) && (n <=? 90) then ascii_of_nat (n + 32) else c.

Fixpoint toLowerCase (s : string) : string :=
  match s with
  | EmptyString => EmptyString
  | String c s' => String (lower c) (toLowerCase s')
  end.

(** [xs.join(sep)] for an array of strings. *)
Fixpoint join (sep : string) (xs : list string) : string :=
  match xs with
  | [] => ""
  | [x] => x
  | x :: xs' => x +:+ sep +:+ join sep xs'
  end.

End JS.
Import JS.

(** ** The transcript parser *)

Module Parser.

(** *** The array behind [simulationConsoleLogs]

    A JavaScript array is an object: besides its indexed elements it can
    carry named properties.  The parser indexes the array with
    [lastTestIndex], which is a number or [undefined]; indexing with
    [undefined] reads and writes the property named ["undefined"], which
    is not an element ([length] and [join] do not see it).  An element
    is a string or a hole, [None]: writing past the end extends the
    array with holes. *)
Record array : Type := Array {
  elems : list (option string);
  undefined_slot : option string
}.

(** [[]] *)
Definition empty : array := Array [] None.

(** [a.length] *)
Definition arr_length (a : array) : nat := length (elems a).

(** [a[i]]: the string there, or [None] for [undefined]. *)
Definition arr_get (a : array) (i : option nat) : option string :=
  match i with
  | Some k => default None (elems a !! k)
  | None => undefined_slot a
  end.

(** [a[i] = v] *)
Definition arr_set (a : array) (i : option nat) (v : string) : array :=
  match i with
  | Some k =>
      if k <? arr_length a
      then Array (<[k := Some v]> (elems a)) (undefined_slot a)
      else Array (elems a ++ replicate (k - arr_length a) None ++ [Some v])
                 (undefined_slot a)
  | None => Array (elems a) (Some v)
  end.

(** [a.splice(i, 1)]: the start index goes through ToIntegerOrInfinity,
    which takes [undefined] to 0; past the end nothing is removed. *)
Definition arr_splice1 (a : array) (i : option nat) : array :=
  Array (delete (default 0 i) (elems a)) (undefined_slot a).

(** [a.pop()] *)
Definition arr_pop (a : array) : array :=
  Array (removelast (elems a)) (undefined_slot a).

(** [a.push(v)] *)
Definition arr_push (a : array) (v : string) : array :=
  Array (elems a ++ [Some v]) (undefined_slot a).

(** [a.join(sep)]: a hole joins as the empty string. *)
Definition arr_join (sep : string) (a : array) : string :=
  join sep (map (default "") (elems a)).

(** [mark + a[i]]: concatenation renders [undefined] as its name. *)
Definition concat_entry (mark : string) (entry : option string) : string :=
  mark +:+ default "undefined" entry.

(** *** The regular expressions of [processTraceLine] *)

(** [line.replace(/^(FIREBASE: \n?)+/, '')]: every repetition of the
    marker, each with the line feed that may follow it, is removed.
    Each repetition consumes characters, so [fuel] = the length of the
    line is enough. *)
Fixpoint strip_markers (fuel : nat) (line : string) : string :=
  match fuel with
  | O => line
  | S fuel' =>
      match strip_prefix "FIREBASE: " line with
      | Some rest =>
          strip_markers fuel'
            (match strip_prefix (String "010" "") rest with
             | Some rest' => rest'
             | None => rest
             end)
      | None => line
      end
  end.

Definition stripMarker (line : string) : string :=
  strip_markers (String.length line) line.

(** The first group and its colon, a greedy run of characters other
    than the dot, then [:]: within the longest prefix of [s] free of
    dots, the text before the last colon, and everything of [s] after
    that colon. *)
Fixpoint last_colon (s : string) : option (string * string) :=
  match s with
  | EmptyString => None
  | String c s' =>
      if Ascii.eqb c "." then None
      else match last_colon s' with
           | Some (g1, rest) => Some (String c g1, rest)
           | None => if Ascii.eqb c ":" then Some ("", s') else None
           end
  end.

(** [(?:\.(read|write|validate):)?]: the tag right after the colon, if
    there is one, and what follows it. *)
Definition tag (s : string) : option string * string :=
  match strip_prefix ".read:" s with
  | Some rest => (Some "read", rest)
  | None =>
      match strip_prefix ".write:" s with
      | Some rest => (Some "write", rest)
      | None =>
          match strip_prefix ".validate:" s with
          | Some rest => (Some "validate", rest)
          | None => (None, s)
          end
      end
  end.

(** The callback of the second [replace]. *)
Definition replacement (g1 : string) (g2 : option string) : string :=
  let g2 := default "read" g2 in
  let g2 := if String.eqb g2 "validate" then "value" else g2 in
  " " +:+ g2 +:+ " " +:+ g1.

(** The second [replace] of the line, by the pattern of the rule checks.
    The pattern is anchored, so it matches once at most: leading white
    space ([\s+]), then [last_colon], then [tag], then any characters
    up to the first line terminator; what is left of the line after the
    match is kept.  A line that does not match is unchanged. *)
Definition rewriteRuleCheck (line : string) : string :=
  let '(ws, body) := span is_space line in
  match ws with
  | EmptyString => line
  | String _ _ =>
      match last_colon body with
      | None => line
      | Some (g1, after) =>
          let '(g2, after') := tag after in
          let '(_, unmatched) :=
            span (fun c => negb (is_line_terminator c)) after' in
          replacement g1 g2 +:+ unmatched
      end
  end.

(** [/^\s+/.test(line)] *)
Definition isIndented (line : string) : bool :=
  match line with
  | EmptyString => false
  | String c _ => is_space c
  end.

(** [line.match(/^\s+=> (true|false)/)]: the captured word as a boolean. *)
Definition matchOutcome (line : string) : option bool :=
  let '(ws, body) := span is_space line in
  match ws with
  | EmptyString => None
  | String _ _ =>
      if startsWith body "=> true" then Some true
      else if startsWith body "=> false" then Some false
      else None
  end.

(** [/^\d+:\d+: /.test(line)] *)
Definition isNumbered (line : string) : bool :=
  let '(d1, r1) := span is_digit line in
  match d1, strip_prefix ":" r1 with
  | String _ _, Some r2 =>
      let '(d2, r3) := span is_digit r2 in
      match d2 with
      | String _ _ => startsWith r3 ": "
      | EmptyString => false
      end
  | _, _ => false
  end.

(** *** The parser state and [processTraceLine] *)

Record state : Type := State {
  simulationConsoleLogs : array;
  lastTestIndex : option nat
}.

(** [lastTestIndex === simulationConsoleLogs.length - 1]: never true of
    [undefined], nor of an empty array, whose [length - 1] is -1. *)
Definition atLastSlot (st : state) : bool :=
  match lastTestIndex st with
  | Some k => S k =? arr_length (simulationConsoleLogs st)
  | None => false
  end.

(** [x.startsWith(' value')] on the entry read from the array: a
    [TypeError] when the entry is [undefined]. *)
Definition entryStartsWith (entry : option string) (p : string)
  : result bool :=
  match entry with
  | Some s => Returns (startsWith s p)
  | None =>
      Throws (TypeError
        "Cannot read properties of undefined (reading 'startsWith')")
  end.

Definition processTraceLine (line : string) (st : state) : result state :=
  let line := rewriteRuleCheck (stripMarker line) in
  let logs := simulationConsoleLogs st in
  let idx := lastTestIndex st in
  if isIndented line then
    match matchOutcome line with
    | Some outcome =>
        uninteresting ←
          (if outcome then entryStartsWith (arr_get logs idx) " value"
           else Returns false);
        let logs' :=
          if (uninteresting : bool) then arr_splice1 logs idx
          else arr_set logs idx
                 (concat_entry (if outcome then " ✓" else " ✗")
                               (arr_get logs idx)) in
        Returns (State logs' None)
    | None =>
        let logs1 := if atLastSlot st then arr_pop logs else logs in
        let logs2 := arr_push logs1 line in
        Returns (State logs2 (Some (arr_length logs2 - 1)))
    end
  else if isNumbered line then
    Returns (State (arr_push logs ("   " +:+ line)) idx)
  else
    let logs1 := if atLastSlot st then arr_pop logs else logs in
    Returns (State (arr_push logs1 line) None).

(** The lines of a transcript, consumed in order; the first exception
    ends the run. *)
Fixpoint consume (lines : list string) (st : state) : result state :=
  match lines with
  | [] => Returns st
  | line :: lines' => st' ← processTraceLine line st; consume lines' st'
  end.

(** The parser as the module leaves it when loaded, once a call has
    allocated its buffer: no entry, no pending check. *)
Definition initial : state := State empty None.

(** [simulationConsoleLogs = []] at the start of a call: a new array;
    [lastTestIndex] is not touched. *)
Definition resetBuffer (st : state) : state :=
  State empty (lastTestIndex st).

End Parser.
Import Parser.

(** ** The simulator *)

Module Simulator.

(** *** [isPermissionDenied] *)

(** [error.code], [error.message]: reading a property of [undefined] or
    [null] is a [TypeError]. *)
Definition getCode (error : thrown) : result value :=
  match error with
  | ThrownObject code _ _ | ThrownOpaque code _ => Returns code
  | ThrownUndefined | ThrownNull =>
      Throws (TypeError "Cannot read properties of undefined (reading 'code')")
  end.

Definition getMessage (error : thrown) : result value :=
  match error with
  | ThrownObject _ message _ | ThrownOpaque _ message => Returns message
  | ThrownUndefined | ThrownNull =>
      Throws (TypeError "Cannot read properties of undefined (reading 'message')")
  end.

(** [code.toLowerCase()]: only a string has the method. *)
Definition callToLowerCase (code : value) : result string :=
  match code with
  | Str s => Returns (toLowerCase s)
  | _ => Throws (TypeError "code.toLowerCase is not a function")
  end.

(** [a === b] on strings, as a JavaScript boolean. *)
Definition strictEq (a b : string) : value := Bool (String.eqb a b).

Definition isPermissionDenied (error : thrown) : result value :=
  c ← getCode error;
  code ← (if truthy c then Returns c else getMessage error);
  if truthy code
  then lowered ← callToLowerCase code;
       Returns (strictEq lowered "permission_denied")
  else Returns code.

(** *** Code that runs against the parser state

    What the Firebase client does is outside the source.  A call into
    it is an [operation]: it leaves the parser in some state (the
    client logs through the intercepted [console.log] while it runs)
    and returns a value or throws; for an asynchronous call this is
    what [await] sees once the promise has settled. *)
Definition M (A : Type) : Type := state -> state * result A.

Definition ret {A} (a : A) : M A := fun st => (st, Returns a).

Definition bind {A B} (m : M A) (f : A -> M B) : M B := fun st =>
  let '(st1, r) := m st in
  match r with
  | Returns a => f a st1
  | Throws e => (st1, Throws e)
  end.

Definition lift {A} (r : result A) : M A := fun st => (st, r).

(** [try { body } catch (e) { handler(e) }] *)
Definition tryCatch {A} (body : M A) (handler : thrown -> M A) : M A :=
  fun st =>
    let '(st1, r) := body st in
    match r with
    | Returns a => (st1, Returns a)
    | Throws e => handler e st1
    end.

Notation "'let*' x := m 'in' k" := (bind m (fun x => k))
  (at level 10, x binder, m at level 100, k at level 200).

Definition operation : Type := M value.

(** *** [_simulateCall]

    The trace of a call: [None] is [undefined], what the function
    returns when the call went through. *)
Definition _simulateCall (call : operation) : M (option string) :=
  fun st =>
    tryCatch
      (let* _ := call in ret None)
      (fun e =>
         let* denied := lift (isPermissionDenied e) in
         if truthy denied
         then fun st' =>
                (st', Returns (Some (arr_join (String "010" "")
                                       (simulationConsoleLogs st'))))
         else let* text := lift (render e) in
              ret (Some ("Got a different error in simulation: " +:+ text)))
      (resetBuffer st).

(** [if (trace)]: [undefined] and the empty string are falsy. *)
Definition truthyTrace (trace : option string) : bool :=
  match trace with
  | Some s => negb (String.eqb s "")
  | None => false
  end.

(** The [for] loop of [_simulateCalls], [traces] being the array it
    pushes to. *)
Fixpoint simulateEach (calls : list operation) (traces : list string)
  : M (list string) :=
  match calls with
  | [] => ret traces
  | call :: calls' =>
      let* trace := _simulateCall call in
      simulateEach calls'
        (match trace with
         | Some s => if truthyTrace trace then traces ++ [s] else traces
         | None => traces
         end)
  end.

(** *** [_simulateCalls]

    [unauth] and [authWithCustomToken] are the client's. *)
Definition _simulateCalls (unauth authWithCustomToken : operation)
    (calls : list operation) : M string :=
  tryCatch
    (let* _ := unauth in
     let* _ := authWithCustomToken in
     let* traces := simulateEach calls [] in
     if length traces =? 0
     then ret "Unable to reproduce error in simulation"
     else ret (join (String "010" (String "010" "")) traces))
    (fun e =>
       let* text := lift (render e) in
       ret ("Error running simulation: " +:+ text)).

End Simulator.
Import Simulator.

(** ** The simulation queue *)

Module Queue.

(** A promise is known by the instant at which it settles and by how it
    settles; [None] is a promise that stays pending for ever (a hung
    call of the client).  Instants are logical: they order the events
    of the single-threaded event loop. *)
Inductive settled : Type :=
| Fulfilled (v : value)
| Rejected (e : thrown).

Definition promise : Type := option (nat * settled).

(** [Promise.resolve()], evaluated when the module is loaded. *)
Definition resolve : promise := Some (0, Fulfilled Undefined).

(** [p.catch(handler)], registered at the instant [now]: fulfilled with
    the value of [p], or with what [handler] returns when [p] is
    rejected; a reaction runs once [p] has settled and not before it
    was registered. *)
Definition catch (now : nat) (p : promise) (handler : thrown -> value)
  : promise :=
  match p with
  | None => None
  | Some (t, Fulfilled v) => Some (Nat.max now t, Fulfilled v)
  | Some (t, Rejected e) => Some (Nat.max now t, Fulfilled (handler e))
  end.

(** [p.then(callback)], registered at the instant [now], for a callback
    that returns a promise: the callback is called when [p] is
    fulfilled, at the instant handed to it, and the result follows the
    promise it returns; a rejection of [p] is passed on. *)
Definition then_ (now : nat) (p : promise)
    (callback : nat -> value -> promise) : promise :=
  match p with
  | None => None
  | Some (t, Fulfilled v) => callback (Nat.max now t) v
  | Some (t, Rejected e) => Some (Nat.max now t, Rejected e)
  end.

(** A task, [() => this._simulateCalls(token, simulatedRef, calls)] in
    the source: called at an instant, it returns its promise. *)
Definition task : Type := nat -> promise.

(** A task's promise settles no earlier than the task is called. *)
Definition causal (f : task) : Prop :=
  forall start t o, f start = Some (t, o) -> start <= t.

(** [_simulate], called at the instant [now]: the promise it returns and
    the new value of [simulationQueue].  [ref] is [ref.toString()].  A
    reference outside the database rejects at once and leaves the queue
    alone.  The child reference is part of the task, and the call of
    [interceptConsoleLog], which does not touch the queue, is left out. *)
Definition _simulate (databaseUrl : string) (now : nat) (ref : string)
    (simulateCalls : task) (simulationQueue : promise)
  : promise * promise :=
  if negb (startsWith ref databaseUrl) then
    let msg := "Ref not in database " +:+ databaseUrl +:+ ": " +:+ ref in
    (Some (now, Rejected (ThrownObject Undefined (Str msg)
                            ("Error: " +:+ msg))),
     simulationQueue)
  else
    let simulationQueue' :=
      then_ now
        (catch now simulationQueue (fun _ => Undefined))
        (fun start _ => simulateCalls start) in
    (simulationQueue', simulationQueue').

(** A sequence of calls of [_simulate], each with its instant, its
    reference and its task, in the order they are made: the promises
    returned, and the queue at the end. *)
Fixpoint submitAll (databaseUrl : string)
    (calls : list (nat * string * task)) (simulationQueue : promise)
  : list promise * promise :=
  match calls with
  | [] => ([], simulationQueue)
  | (now, ref, f) :: calls' =>
      let '(p, q) := _simulate databaseUrl now ref f simulationQueue in
      let '(ps, q') := submitAll databaseUrl calls' q in
      (p :: ps, q')
  end.

End Queue.

Import Queue.

(** ** The words of the specification

    Predicates written after the specification's sentences, to be compared
    with what the code computes. *)

Module Spec.

Definition is_upper (c : ascii) : bool :=
  let n := nat_of_ascii c in (65 <=? n) && (n <=? 90).

(** Two characters that are the same, or the two cases of one letter. *)
Definition sameLetter (a b : ascii) : bool :=
  let m := nat_of_ascii a in
  let n := nat_of_ascii b in
  (m =? n)
  || (is_upper a && (n =? m + 32))
  || (is_upper b && (m =? n + 32)).

(** "case-insensitively equals" *)
Fixpoint equalsIgnoringCase (s t : string) : bool :=
  match s, t with
  | EmptyString, EmptyString => true
  | String a s', String b t' => sameLetter a b && equalsIgnoringCase s' t'
  | _, _ => false
  end.

(** A string without capital letters, as the literal the code compares
    with. *)
Fixpoint lowerCased (t : string) : bool :=
  match t with
  | EmptyString => true
  | String b t' => negb (is_upper b) && lowerCased t'
  end.

Definition valueEqualsIgnoringCase (v : value) (t : string) : Prop :=
  match v with
  | Str s => equalsIgnoringCase s t = true
  | _ => False
  end.

(** "the error's code (or, absent a code, its message) case-insensitively
    equals permission_denied": the code is absent when the property is
    [undefined]. *)
Definition deniedWhenCodeAbsent (error : thrown) : Prop :=
  match error with
  | ThrownObject Undefined message _ | ThrownOpaque Undefined message =>
      valueEqualsIgnoringCase message "permission_denied"
  | ThrownObject code _ _ | ThrownOpaque code _ =>
      valueEqualsIgnoringCase code "permission_denied"
  | ThrownUndefined | ThrownNull => False
  end.

(** The same with the message standing in for every falsy code:
    [undefined], [null], [false], 0 and the empty string. *)
Definition deniedWhenCodeFalsy (error : thrown) : Prop :=
  match error with
  | ThrownObject code message _ | ThrownOpaque code message =>
      valueEqualsIgnoringCase (if truthy code then code else message)
        "permission_denied"
  | ThrownUndefined | ThrownNull => False
  end.

(** The cursor is "none" or an index into the buffer. *)
Definition cursorValid (st : state) : Prop :=
  match lastTestIndex st with
  | None => True
  | Some k => k < arr_length (simulationConsoleLogs st)
  end.

(** The cursor points at an existing entry of the buffer. *)
Definition cursorAtEntry (st : state) : Prop :=
  exists k s, lastTestIndex st = Some k
              /\ elems (simulationConsoleLogs st) !! k = Some (Some s).

(** How the parser reads a raw line: as an outcome line, with its
    boolean, or as something else. *)
Definition outcomeOf (line : string) : option bool :=
  matchOutcome (rewriteRuleCheck (stripMarker line)).

(** A line that settles the cursor whatever it was: a rule-check line
    (indented, no outcome) or an ordinary top-level line (neither
    indented nor numbered). *)
Definition settlesCursor (line : string) : bool :=
  let line := rewriteRuleCheck (stripMarker line) in
  if isIndented line
  then match matchOutcome line with Some _ => false | None => true end
  else negb (isNumbered line).

(** "TraceBuffer contents": the entries of the array. *)
Definition contents (st : state) : list (option string) :=
  elems (simulationConsoleLogs st).

(** The state at the start of the second of two runs: a new buffer, the
    cursor as the first run left it. *)
Definition carriedOver (st : state) : state := resetBuffer st.

(** What each call of a request returns, in order, when every one of
    them returns. *)
Fixpoint callTraces (calls : list operation) : M (list (option string)) :=
  match calls with
  | [] => ret []
  | call :: calls' =>
      let* trace := _simulateCall call in
      let* traces := callTraces calls' in
      ret (trace :: traces)
  end.

(** "contributed a trace": the traces that are truthy, [undefined] and
    the empty string left out. *)
Definition contributed (traces : list (option string)) : list string :=
  omap (fun t => if truthyTrace t then t else None) traces.


(** "joined with a blank line between them" *)
Definition blankLineJoined (traces : list string) : string :=
  join (String "010" (String "010" "")) traces.

End Spec.
Import Spec.

(** ** The console filter *)

Module Console.

(** An argument of [console.log] as [join] sees it: [None] for
    [undefined] and [null], which join as the empty string, and the
    string of any other value. *)
Definition argument : Type := option string.

(** [Array.prototype.join.call(arguments, ' ')] *)
Definition joinArguments (args : list argument) : string :=
  join " " (map (default "") args).

(** The test of the marker pattern on a message: one repetition of the
    marker at the start is enough. *)
Definition hasMarker (message : string) : bool :=
  startsWith message "FIREBASE: ".

(** What [console.log] is bound to: the function of the runtime, or the
    filter of [interceptConsoleLog] over the function bound before. *)
Inductive logger : Type :=
| Runtime
| Filter (originalLog : logger).

(** [console.log] and the module variable [consoleIntercepted]. *)
Record console : Type := Console {
  consoleLog : logger;
  consoleIntercepted : bool
}.

Definition interceptConsoleLog (c : console) : console :=
  if consoleIntercepted c then c
  else Console (Filter (consoleLog c)) true.

(** What the runtime has printed, one list of arguments per call, and the
    parser. *)
Record world : Type := World {
  printed : list (list argument);
  parser : state
}.

(** A call of [console.log]. *)
Fixpoint callLog (l : logger) (args : list argument) (w : world)
  : result world :=
  match l with
  | Runtime => Returns (World (printed w ++ [args]) (parser w))
  | Filter originalLog =>
      let message := joinArguments args in
      if negb (hasMarker message) then callLog originalLog args w
      else st' ← processTraceLine message (parser w);
           Returns (World (printed w) st')
  end.

(** Calls of [console.log] one after the other; an exception ends them. *)
Fixpoint logAll (l : logger) (calls : list (list argument)) (w : world)
  : result world :=
  match calls with
  | [] => Returns w
  | args :: calls' => w' ← callLog l args w; logAll l calls' w'
  end.

End Console.
Import Console.

(** ** The kinds of lines of a transcript *)

Module Transcript.

(** The line as the parser reads it, the marker stripped and a rule check
    rewritten. *)
Definition entryOf (line : string) : string :=
  rewriteRuleCheck (stripMarker line).

(** A line that becomes a pending entry: indented, and no outcome. *)
Definition isCheckLine (line : string) : bool :=
  isIndented (entryOf line)
  && match matchOutcome (entryOf line) with Some _ => false | None => true end.

(** A rule-location line: at the top level, numbered. *)
Definition isLocationLine (line : string) : bool :=
  negb (isIndented (entryOf line)) && isNumbered (entryOf line).

(** An ordinary top-level line: neither indented nor numbered. *)
Definition isTopLine (line : string) : bool :=
  negb (isIndented (entryOf line)) && negb (isNumbered (entryOf line)).

(** The entry a rule-location line is pushed as. *)
Definition locationEntry (line : string) : option string :=
  Some ("   " +:+ entryOf line).

(** The buffer a pending entry is pushed to: the buffer of the state,
    without its last entry when that one is still pending. *)
Definition settledEntries (st : state) : list (option string) :=
  if atLastSlot st then removelast (contents st) else contents st.

(** No entry of the buffer is a hole. *)
Definition noHoles (st : state) : Prop :=
  Forall is_Some (contents st).

(** A call of the client that logs the given messages, each with one call
    of [console.log] through the installed filter, and then ends as
    [ending]: a message without the marker goes to the log of the runtime
    and not to the parser.  An exception of the parser is taken to end
    the call, in the state reached. *)
Fixpoint emitting (messages : list string) (ending : result value)
  : operation :=
  fun st =>
    match messages with
    | [] => (st, ending)
    | message :: messages' =>
        if hasMarker message then
          match processTraceLine message st with
          | Returns st' => emitting messages' ending st'
          | Throws e => (st, Throws e)
          end
        else emitting messages' ending st
    end.

(** When [isPermissionDenied] throws: on [undefined] and [null], and on a
    selected value that is truthy and no string. *)
Definition classifierThrows (error : thrown) : Prop :=
  match error with
  | ThrownObject code message _ | ThrownOpaque code message =>
      match (if truthy code then code else message) with
      | Bool true => True
      | Num n => n <> 0%Z
      | _ => False
      end
  | ThrownUndefined | ThrownNull => True
  end.

(** A transcript that does not consult the cursor it starts with, on a
    buffer of [n] entries that rule-location lines have pushed: it goes on
    with rule-location lines only, or with a line that settles the cursor
    while the cursor is not the index of the last of those entries
    (which the line would take for a pending entry, and drop). *)
Fixpoint ignoresCursor (c : option nat) (n : nat) (lines : list string)
  : bool :=
  match lines with
  | [] => true
  | line :: lines' =>
      if isLocationLine line then ignoresCursor c (S n) lines'
      else settlesCursor line
           && negb (match c with Some k => S k =? n | None => false end)
  end.

(** A transcript in which every outcome line answers a rule check: it
    comes after a rule-check line, with nothing but rule-location lines in
    between.  [pending] tells whether a rule check awaits its outcome. *)
Fixpoint wellNested (pending : bool) (lines : list string) : bool :=
  match lines with
  | [] => true
  | line :: lines' =>
      if isCheckLine line then wellNested true lines'
      else if isLocationLine line then wellNested pending lines'
      else if isTopLine line then wellNested false lines'
      else pending && wellNested false lines'
  end.

End Transcript.
Import Transcript.

(** ** The parser before a call has allocated the buffer *)

Module Globals.

(** The two module variables as the module declares them:
    [simulationConsoleLogs] is [undefined], [None], from the loading of
    the module until [_simulateCall] assigns an array to it, while the
    console filter is installed by [_simulate] before that. *)
Record globals : Type := Globals {
  logs : option array;
  index : option nat
}.

(** The variables when the module has been loaded. *)
Definition atLoad : globals := Globals None None.

(** [processTraceLine] on these variables.  Every branch of the function
    reads a property of [simulationConsoleLogs] before it assigns
    anything: on [undefined] that is a [TypeError], whatever the line;
    on an array the function is [Parser.processTraceLine]. *)
Definition processTraceLine (line : string) (g : globals) : result globals :=
  match logs g with
  | None =>
      Throws (TypeError "Cannot read properties of undefined (reading 'length')")
  | Some a =>
      st' ← Parser.processTraceLine line (State a (index g));
      Returns (Globals (Some (simulationConsoleLogs st')) (lastTestIndex st'))
  end.

End Globals.

(** ** The reference of a simulation and the proxy *)

Module Proxy.

(** [s.slice(n)] for an [n] within the string. *)
Fixpoint slice (n : nat) (s : string) : string :=
  match n, s with
  | O, _ => s
  | S n', String _ s' => slice n' s'
  | S _, EmptyString => EmptyString
  end.

(** The path handed to [child] in [_simulate]:
    [ref.toString().slice(this._databaseUrl.length)]. *)
Definition childPath (databaseUrl ref : string) : string :=
  slice (String.length databaseUrl) ref.

(** The properties of a [Simulator] object: the fields the constructor
    sets, the methods of the class body, and what [Object.prototype]
    gives every object. *)
Inductive kind : Type := Field | Method.

Definition simulatorProperties : list (string * kind) :=
  [ ("_simulatedFirebase", Field); ("_databaseUrl", Field);
    ("_tokenGenerator", Field);
    ("constructor", Method); ("isPermissionDenied", Method);
    ("auth", Method); ("_simulate", Method); ("_simulateCalls", Method);
    ("_simulateCall", Method);
    ("hasOwnProperty", Method); ("isPrototypeOf", Method);
    ("propertyIsEnumerable", Method); ("toLocaleString", Method);
    ("toString", Method); ("valueOf", Method);
    ("__defineGetter__", Method); ("__defineSetter__", Method);
    ("__lookupGetter__", Method); ("__lookupSetter__", Method);
    ("__proto__", Field) ].

Fixpoint property (name : string) (properties : list (string * kind))
  : option kind :=
  match properties with
  | [] => None
  | (n, k) :: properties' =>
      if String.eqb n name then Some k else property name properties'
  end.

Section WithData.

(** The values a caller passes to [set], [update], [push] and
    [transaction]. *)
Variable data : Type.

Inductive argument : Type :=
| EventValue
| Data (d : data).

(** An element of [calls]; [remove] has no [args]. *)
Record CallSpec : Type := {
  method : string;
  args : option (list argument)
}.

(** The bodies of the methods of the simulator, by name. *)
Variable invoke : string -> string -> string -> list CallSpec -> promise.

(** [this._simulator.simulate(token, ref, calls)] inside an [async]
    method called at the instant [now]: calling what is no method throws a
    [TypeError], and the promise of the method rejects with it. *)
Definition callSimulate (now : nat) (token ref : string)
    (calls : list CallSpec) : promise :=
  match property "simulate" simulatorProperties with
  | Some Method => invoke "simulate" token ref calls
  | _ =>
      Some (now,
            Rejected (TypeError "this._simulator.simulate is not a function"))
  end.

Definition on (now : nat) (token ref : string) : promise :=
  callSimulate now token ref [{| method := "once"; args := Some [EventValue] |}].

Definition once (now : nat) (token ref : string) : promise :=
  callSimulate now token ref [{| method := "once"; args := Some [EventValue] |}].

Definition set (now : nat) (token ref : string) (v : data) : promise :=
  callSimulate now token ref [{| method := "set"; args := Some [Data v] |}].

Definition update (now : nat) (token ref : string) (v : data) : promise :=
  callSimulate now token ref [{| method := "update"; args := Some [Data v] |}].

Definition remove (now : nat) (token ref : string) : promise :=
  callSimulate now token ref [{| method := "remove"; args := None |}].

Definition push (now : nat) (token ref : string) (v : data) : promise :=
  callSimulate now token ref [{| method := "push"; args := Some [Data v] |}].

Definition transaction (now : nat) (token ref : string) (v : data) : promise :=
  callSimulate now token ref
    [ {| method := "once"; args := Some [EventValue] |};
      {| method := "set"; args := Some [Data v] |} ].

End WithData.

End Proxy.

(** ** The parser on the transcripts of the specification *)

Example rewrite_tag_after_colon :
  rewriteRuleCheck "  /foo:.write: x" = " write /foo".
Proof. reflexivity. Qed.

Example rewrite_tag_after_space :
  rewriteRuleCheck "  /foo: .write:x" = " read /foo".
Proof. reflexivity. Qed.

Example rewrite_keeps_later_lines :
  rewriteRuleCheck ("  a:.validate:x" +:+ String "010" "b") =
  " value a" +:+ String "010" "b".
Proof. reflexivity. Qed.

Example rewrite_last_colon_before_dot :
  rewriteRuleCheck "  /a:b:.read: auth.uid === 'x'" = " read /a:b".
Proof. reflexivity. Qed.

Example rewrite_needs_colon_before_dot :
  rewriteRuleCheck "  => auth.uid: x" = "  => auth.uid: x".
Proof. reflexivity. Qed.

Example numbered_line :
  isNumbered "12:3: auth != null" = true /\ isNumbered "12:3:x" = false.
Proof. split; reflexivity. Qed.

Example write_past_the_end :
  arr_set empty (Some 2) "x" = Array [None; None; Some "x"] None
  /\ arr_join (String "010" "") (Array [None; None; Some "x"] None)
     = String "010" (String "010" "x").
Proof. split; reflexivity. Qed.

Example strip_repeated_markers :
  stripMarker ("FIREBASE: " +:+ String "010" "FIREBASE:   => true") = "  => true".
Proof. reflexivity. Qed.

(** C1, as stated, fails: on the three lines of the claim the buffer does
    not end as the single entry ["✗ write b"]. *)
Lemma C1_stale_pending_counterexample :
  ~ exists st,
      consume ["  a: .write:x"; "  b: .write:y"; "  => false"] initial
        = Returns st
      /\ contents st = [Some "✗ write b"].
Proof.
  intros (st & Hrun & Hbuf). vm_compute in Hrun.
  injection Hrun as <-. discriminate Hbuf.
Qed.

(** C1, amended.  On the lines ["  a: .write:x"], ["  b: .write:y"],
    ["  => false"], fed to an empty buffer with no pending cursor, the
    entry of rule [a] is pending after the first line and is dropped when
    the second line arrives; the tag is recognised only right after the
    colon, so both checks are of the default kind [read], and the mark is
    prepended with a space before it: the buffer ends as the single entry
    [" ✗ read b"].  With the tag right after the colon (["  a:.write:x"],
    ["  b:.write:y"]) the single entry is [" ✗ write b"]. *)
Theorem C1_stale_pending_superseded :
  consume ["  a: .write:x"] initial
    = Returns (State (Array [Some " read a"] None) (Some 0))
  /\ consume ["  a: .write:x"; "  b: .write:y"] initial
    = Returns (State (Array [Some " read b"] None) (Some 0))
  /\ consume ["  a: .write:x"; "  b: .write:y"; "  => false"] initial
    = Returns (State (Array [Some " ✗ read b"] None) None)
  /\ consume ["  a:.write:x"; "  b:.write:y"] initial
    = Returns (State (Array [Some " write b"] None) (Some 0))
  /\ consume ["  a:.write:x"; "  b:.write:y"; "  => false"] initial
    = Returns (State (Array [Some " ✗ write b"] None) None).
Proof. repeat split; reflexivity. Qed.

(** C2, as stated, fails: the entry is not ["✓ read foo"]. *)
Lemma C2_passing_read_counterexample :
  ~ exists st,
      consume ["  foo: .read:bar"; "  => true"] initial = Returns st
      /\ contents st = [Some "✓ read foo"].
Proof.
  intros (st & Hrun & Hbuf). vm_compute in Hrun.
  injection Hrun as <-. discriminate Hbuf.
Qed.

(** C2, amended.  On the lines ["  foo: .read:bar"] then ["  => true"], fed
    to an empty buffer with no pending cursor, the pending entry is
    [" read foo"] and the buffer ends with exactly one entry, equal to
    [" ✓ read foo"]: the mark is prepended with a space before it and the
    entry keeps its own leading space. *)
Theorem C2_passing_read_marked :
  consume ["  foo: .read:bar"] initial
    = Returns (State (Array [Some " read foo"] None) (Some 0))
  /\ consume ["  foo: .read:bar"; "  => true"] initial
    = Returns (State (Array [Some " ✓ read foo"] None) None).
Proof. split; reflexivity. Qed.

(** C3, as stated, fails: on the two lines of the claim the pending entry
    is not of the kind [value] and the buffer does not end empty. *)
Lemma C3_passing_validate_counterexample :
  ~ exists st,
      consume ["  foo: .validate:bar"; "  => true"] initial = Returns st
      /\ contents st = [].
Proof.
  intros (st & Hrun & Hbuf). vm_compute in Hrun.
  injection Hrun as <-. discriminate Hbuf.
Qed.

(** C3, amended.  With the tag right after the colon, the lines
    ["  foo:.validate:bar"] then ["  => true"], fed to an empty buffer
    with no pending cursor, rewrite the pending entry to the value-kind
    check [" value foo"], and the true outcome removes that entry: the
    buffer ends empty.  On the line ["  foo: .validate:bar"], where a
    space separates the colon from the tag, the tag is not recognised:
    the pending entry is [" read foo"] and the true outcome marks it, the
    buffer ending as the single entry [" ✓ read foo"]. *)
Theorem C3_passing_value_removed :
  consume ["  foo:.validate:bar"] initial
    = Returns (State (Array [Some " value foo"] None) (Some 0))
  /\ consume ["  foo:.validate:bar"; "  => true"] initial
    = Returns (State (Array [] None) None)
  /\ consume ["  foo: .validate:bar"] initial
    = Returns (State (Array [Some " read foo"] None) (Some 0))
  /\ consume ["  foo: .validate:bar"; "  => true"] initial
    = Returns (State (Array [Some " ✓ read foo"] None) None).
Proof. repeat split; reflexivity. Qed.

(** ** The classifier *)

Lemma ascii_eqb_nat (a b : ascii) :
  Ascii.eqb a b = (nat_of_ascii a =? nat_of_ascii b).
Proof.
  destruct (Ascii.eqb_spec a b) as [-> | Hne].
  - symmetry. apply Nat.eqb_refl.
  - symmetry. apply Nat.eqb_neq. intros Heq. apply Hne.
    rewrite <- (ascii_nat_embedding a), <- (ascii_nat_embedding b).
    now rewrite Heq.
Qed.

(** Lowering one character against a character that is no capital. *)
Lemma lower_sameLetter (a b : ascii) :
  is_upper b = false -> Ascii.eqb (lower a) b = sameLetter a b.
Proof.
  intros Hb. unfold sameLetter, lower. rewrite Hb. fold (is_upper a).
  pose proof (nat_ascii_bounded a) as Ha.
  unfold is_upper in Hb.
  destruct (is_upper a) eqn:Hup; unfold is_upper in Hup; rewrite ascii_eqb_nat.
  - rewrite nat_ascii_embedding by
      (apply andb_true_iff in Hup as [_ H%Nat.leb_le]; lia).
    apply andb_true_iff in Hup as [H1%Nat.leb_le H2%Nat.leb_le].
    apply andb_false_iff in Hb.
    destruct (nat_of_ascii a =? nat_of_ascii b) eqn:E.
    + apply Nat.eqb_eq in E.
      destruct Hb as [H%Nat.leb_gt | H%Nat.leb_gt]; lia.
    + simpl. rewrite orb_false_r. apply Nat.eqb_sym.
  - simpl. now rewrite !orb_false_r.
Qed.

Lemma toLowerCase_equalsIgnoringCase (s t : string) :
  lowerCased t = true ->
  String.eqb (toLowerCase s) t = equalsIgnoringCase s t.
Proof.
  revert t. induction s as [| a s IH]; intros [| b t] Ht; try reflexivity.
  simpl in *. apply andb_true_iff in Ht as [Hb Ht].
  apply negb_true_iff in Hb.
  rewrite lower_sameLetter by assumption.
  destruct (sameLetter a b); [now apply IH | reflexivity].
Qed.

(** What [isPermissionDenied] returns, by the selected value
    [error.code || error.message]. *)
Lemma isPermissionDenied_object (code message : value) (text : string) :
  isPermissionDenied (ThrownObject code message text) =
  let selected := if truthy code then code else message in
  if truthy selected
  then match selected with
       | Str s => Returns (Bool (equalsIgnoringCase s "permission_denied"))
       | _ => Throws (TypeError "code.toLowerCase is not a function")
       end
  else Returns selected.
Proof.
  assert (Hstr : forall s,
            callToLowerCase (Str s)
              ≫= (fun lowered => Returns (strictEq lowered "permission_denied"))
            = Returns (Bool (equalsIgnoringCase s "permission_denied"))).
  { intros s. unfold mbind, result_bind, callToLowerCase, strictEq.
    now rewrite toLowerCase_equalsIgnoringCase. }
  unfold isPermissionDenied, getCode, getMessage.
  unfold mbind at 1 2, result_bind at 1 2.
  destruct (truthy code) eqn:Hc; cbn zeta.
  - rewrite Hc. destruct code; try discriminate Hc; try reflexivity.
    apply Hstr.
  - destruct (truthy message) eqn:Hm; [| reflexivity].
    destruct message; try discriminate Hm; try reflexivity.
    apply Hstr.
Qed.

Lemma isPermissionDenied_opaque (code message : value) :
  isPermissionDenied (ThrownOpaque code message) =
  let selected := if truthy code then code else message in
  if truthy selected
  then match selected with
       | Str s => Returns (Bool (equalsIgnoringCase s "permission_denied"))
       | _ => Throws (TypeError "code.toLowerCase is not a function")
       end
  else Returns selected.
Proof.
  assert (Hstr : forall s,
            callToLowerCase (Str s)
              ≫= (fun lowered => Returns (strictEq lowered "permission_denied"))
            = Returns (Bool (equalsIgnoringCase s "permission_denied"))).
  { intros s. unfold mbind, result_bind, callToLowerCase, strictEq.
    now rewrite toLowerCase_equalsIgnoringCase. }
  unfold isPermissionDenied, getCode, getMessage.
  unfold mbind at 1 2, result_bind at 1 2.
  destruct (truthy code) eqn:Hc; cbn zeta.
  - rewrite Hc. destruct code; try discriminate Hc; try reflexivity.
    apply Hstr.
  - destruct (truthy message) eqn:Hm; [| reflexivity].
    destruct message; try discriminate Hm; try reflexivity.
    apply Hstr.
Qed.

(** The value selected from the code and the message classifies. *)
Lemma selected_denied (code message : value) :
  (let selected := if truthy code then code else message in
   if truthy selected
   then match selected with
        | Str s => Returns (Bool (equalsIgnoringCase s "permission_denied"))
        | _ => Throws (TypeError "code.toLowerCase is not a function")
        end
   else Returns selected) = Returns (Bool true)
  <-> valueEqualsIgnoringCase (if truthy code then code else message)
        "permission_denied".
Proof.
  cbn zeta.
  set (selected := if truthy code then code else message).
  destruct selected as [| | b | n | s] eqn:E; cbn [truthy valueEqualsIgnoringCase].
  - split; [discriminate | contradiction].
  - split; [discriminate | contradiction].
  - destruct b; split; try discriminate; contradiction.
  - destruct (negb (n =? 0)%Z); split; try discriminate; contradiction.
  - destruct (negb (String.eqb s "")) eqn:Hs.
    + split; [now intros [= ->] | now intros ->].
    + apply negb_false_iff, String.eqb_eq in Hs as ->.
      split; discriminate.
Qed.

(** C7, as stated, fails: an error whose code is the empty string is
    classified by its message, though its code is not absent. *)
Lemma C7_isPermissionDenied_counterexample :
  isPermissionDenied
    (ThrownObject (Str "") (Str "permission_denied") "Error: permission_denied")
    = Returns (Bool true)
  /\ ~ deniedWhenCodeAbsent
        (ThrownObject (Str "") (Str "permission_denied")
           "Error: permission_denied").
Proof. split; [reflexivity | simpl; discriminate]. Qed.

(** C7, amended.  [isPermissionDenied(error)] returns [true] if and only if
    the error's code (or, when the code is absent or any other falsy
    value, such as the empty string, its message) case-insensitively
    equals [permission_denied]; in particular it is [true] for
    [{code: 'PERMISSION_DENIED'}] and for [{message: 'permission_denied'}],
    and [false] for [{code: 'network_error'}]. *)
Theorem C7_isPermissionDenied_iff :
  (forall error,
     isPermissionDenied error = Returns (Bool true)
     <-> deniedWhenCodeFalsy error)
  /\ (forall text,
        isPermissionDenied (ThrownObject (Str "PERMISSION_DENIED") Undefined text)
        = Returns (Bool true))
  /\ (forall text,
        isPermissionDenied (ThrownObject Undefined (Str "permission_denied") text)
        = Returns (Bool true))
  /\ (forall text,
        isPermissionDenied (ThrownObject (Str "network_error") Undefined text)
        = Returns (Bool false)).
Proof.
  split; [| repeat split; reflexivity].
  intros [| | code message text | code message];
    try (split; [discriminate | contradiction]).
  - rewrite isPermissionDenied_object. apply selected_denied.
  - rewrite isPermissionDenied_opaque. apply selected_denied.
Qed.

(** ** The parser on every line and every state *)

Lemma matchOutcome_isIndented (line : string) (b : bool) :
  matchOutcome line = Some b -> isIndented line = true.
Proof.
  destruct line as [| c line]; [discriminate |].
  unfold matchOutcome. cbn [span isIndented].
  destruct (is_space c); [reflexivity |]. discriminate.
Qed.

(** The three ways [processTraceLine] ends, by the kind of the line. *)
Lemma processTraceLine_outcome (line : string) (st : state) (outcome : bool) :
  outcomeOf line = Some outcome ->
  processTraceLine line st =
  let logs := simulationConsoleLogs st in
  let idx := lastTestIndex st in
  uninteresting ←
    (if outcome then entryStartsWith (arr_get logs idx) " value"
     else Returns false);
  Returns
    (State (if (uninteresting : bool) then arr_splice1 logs idx
            else arr_set logs idx
                   (concat_entry (if outcome then " ✓" else " ✗")
                                 (arr_get logs idx)))
           None).
Proof.
  unfold outcomeOf, processTraceLine. intros H.
  rewrite (matchOutcome_isIndented _ _ H), H. reflexivity.
Qed.

Lemma processTraceLine_not_outcome (line : string) (st : state) :
  outcomeOf line <> Some true ->
  exists st', processTraceLine line st = Returns st'.
Proof.
  unfold outcomeOf, processTraceLine. intros H.
  destruct (isIndented _).
  - destruct (matchOutcome _) as [[|] |]; [congruence | |]; eauto.
  - destruct (isNumbered _); eauto.
Qed.

Lemma arr_length_push (a : array) (v : string) :
  arr_length (arr_push a v) = S (arr_length a).
Proof. unfold arr_length, arr_push. cbn [elems]. rewrite length_app. simpl. lia. Qed.

Lemma processTraceLine_cursorValid (line : string) (st st' : state) :
  cursorValid st ->
  processTraceLine line st = Returns st' ->
  cursorValid st'.
Proof.
  unfold processTraceLine, cursorValid. intros Hvalid Hrun.
  destruct (isIndented _).
  - destruct (matchOutcome _) as [outcome |].
    + unfold mbind, result_bind in Hrun.
      destruct (if outcome then _ else _); [| discriminate].
      injection Hrun as <-. exact I.
    + injection Hrun as <-. cbn [lastTestIndex simulationConsoleLogs].
      rewrite arr_length_push. lia.
  - destruct (isNumbered _); injection Hrun as <-; [| exact I].
    cbn [lastTestIndex simulationConsoleLogs].
    destruct (lastTestIndex st) as [k |]; [| exact I].
    rewrite arr_length_push. lia.
Qed.

(** C9.  Cursor validity is an invariant of [processTraceLine]: from a
    state whose [lastTestIndex] is "none" or an index into the buffer,
    whenever the function returns normally, on any line, [lastTestIndex]
    is again "none" or an index into the buffer as it is then. *)
Theorem C9_cursor_valid_preserved (line : string) (st st' : state) :
  cursorValid st ->
  processTraceLine line st = Returns st' ->
  cursorValid st'.
Proof. apply processTraceLine_cursorValid. Qed.

Lemma C9_cursor_valid_preserved_witness :
  cursorValid (State (Array [Some " read a"] None) (Some 0))
  /\ processTraceLine "1:2: auth != null"
       (State (Array [Some " read a"] None) (Some 0))
     = Returns (State (Array [Some " read a"; Some "   1:2: auth != null"] None)
                      (Some 0))
  /\ cursorValid
       (State (Array [Some " read a"; Some "   1:2: auth != null"] None)
              (Some 0)).
Proof.
  assert (Hvalid : cursorValid (State (Array [Some " read a"] None) (Some 0)))
    by (unfold cursorValid, arr_length; cbn; lia).
  assert (Hrun : processTraceLine "1:2: auth != null"
                   (State (Array [Some " read a"] None) (Some 0))
                 = Returns (State (Array [Some " read a";
                                          Some "   1:2: auth != null"] None)
                                  (Some 0)))
    by reflexivity.
  split; [exact Hvalid |]. split; [exact Hrun |].
  exact (C9_cursor_valid_preserved _ _ _ Hvalid Hrun).
Defined.

(** The invariant along a whole transcript. *)
Lemma consume_cursorValid (lines : list string) (st st' : state) :
  cursorValid st -> consume lines st = Returns st' -> cursorValid st'.
Proof.
  revert st. induction lines as [| line lines IH]; intros st Hvalid Hrun.
  - injection Hrun as <-. exact Hvalid.
  - cbn [consume] in Hrun. unfold mbind, result_bind in Hrun.
    destruct (processTraceLine line st) as [st1 |] eqn:Hstep; [| discriminate].
    apply (IH st1); [| exact Hrun].
    exact (processTraceLine_cursorValid _ _ _ Hvalid Hstep).
Qed.

(** An outcome [true] finds an entry under the cursor: the line is consumed. *)
Lemma processTraceLine_true_on_entry (line : string) (st : state) (s : string) :
  outcomeOf line = Some true ->
  arr_get (simulationConsoleLogs st) (lastTestIndex st) = Some s ->
  exists st', processTraceLine line st = Returns st'.
Proof.
  intros Hline Hget. rewrite (processTraceLine_outcome _ _ _ Hline).
  cbn zeta. rewrite Hget. unfold mbind, result_bind, entryStartsWith. eauto.
Qed.

(** An outcome [true] finds [undefined] under the cursor: [startsWith] is
    called on it and throws. *)
Lemma processTraceLine_true_on_undefined (line : string) (st : state) :
  outcomeOf line = Some true ->
  arr_get (simulationConsoleLogs st) (lastTestIndex st) = None ->
  exists e, processTraceLine line st = Throws e.
Proof.
  intros Hline Hget. rewrite (processTraceLine_outcome _ _ _ Hline).
  cbn zeta. rewrite Hget. unfold mbind, result_bind, entryStartsWith. eauto.
Qed.

(** C10, as stated, fails in its second half: once an outcome [false] has
    been consumed with the cursor at "none", the array carries a property
    named ["undefined"], and an outcome [true] consumed with the cursor at
    "none" reads that string and returns. *)
Lemma C10_true_outcome_without_cursor_counterexample :
  consume ["  => false"] initial
    = Returns (State (Array [] (Some " ✗undefined")) None)
  /\ outcomeOf "  => true" = Some true
  /\ lastTestIndex (State (Array [] (Some " ✗undefined")) None) = None
  /\ ~ exists e,
        processTraceLine "  => true" (State (Array [] (Some " ✗undefined")) None)
        = Throws e.
Proof.
  repeat split; try reflexivity.
  intros [e He]. vm_compute in He. discriminate He.
Qed.

(** C10, amended.  [processTraceLine] returns without throwing for every
    line and every parser state in which the buffer exists
    ([simulationConsoleLogs] has been assigned its array by a call),
    provided that whenever the line is an outcome line matching [=> true]
    the cursor points at an existing entry of the buffer; while
    [simulationConsoleLogs] is still [undefined], from the loading of the
    module to the first call, every line throws.  Without the
    precondition on the cursor, an outcome [=> true] consumed while the
    cursor is "none" throws when the array has no property named
    ["undefined"], as is the case of a buffer just reset (an outcome
    [=> false] consumed with the cursor at "none" creates that property,
    after which the call returns). *)
Theorem C10_total_when_cursor_at_entry (line : string) (g : Globals.globals) :
  (forall buffer,
     Globals.logs g = Some buffer ->
     (outcomeOf line = Some true ->
      cursorAtEntry (State buffer (Globals.index g))) ->
     exists g', Globals.processTraceLine line g = Returns g')
  /\ (Globals.logs g = None ->
      exists e, Globals.processTraceLine line g = Throws e)
  /\ (forall buffer,
        Globals.logs g = Some buffer ->
        outcomeOf line = Some true ->
        Globals.index g = None ->
        undefined_slot buffer = None ->
        exists e, Globals.processTraceLine line g = Throws e).
Proof.
  unfold Globals.processTraceLine. split; [| split].
  - intros buffer -> Hpre.
    assert (Hrun : exists st',
              processTraceLine line (State buffer (Globals.index g))
              = Returns st').
    { destruct (outcomeOf line) as [[|] |] eqn:Hline;
        try (apply processTraceLine_not_outcome; congruence).
      destruct (Hpre eq_refl) as (k & s & Hidx & Hentry).
      apply (processTraceLine_true_on_entry line _ s Hline).
      cbn [lastTestIndex simulationConsoleLogs] in *.
      rewrite Hidx. cbn [arr_get]. now rewrite Hentry. }
    destruct Hrun as [st' ->]. unfold mbind, result_bind. eauto.
  - intros ->. eauto.
  - intros buffer -> Hline Hidx Hslot.
    destruct (processTraceLine_true_on_undefined line
                (State buffer (Globals.index g)) Hline) as [e ->].
    + cbn [lastTestIndex simulationConsoleLogs]. rewrite Hidx. exact Hslot.
    + unfold mbind, result_bind. eauto.
Qed.

Lemma C10_total_when_cursor_at_entry_witness :
  cursorAtEntry (State (Array [Some " value a"] None) (Some 0))
  /\ (exists g',
        Globals.processTraceLine "  => true"
          (Globals.Globals (Some (Array [Some " value a"] None)) (Some 0))
        = Returns g')
  /\ (exists e,
        Globals.processTraceLine "Attempt to read /a" Globals.atLoad = Throws e)
  /\ (exists e,
        Globals.processTraceLine "  => true"
          (Globals.Globals (Some empty) None) = Throws e).
Proof.
  assert (Hentry : cursorAtEntry (State (Array [Some " value a"] None) (Some 0)))
    by (exists 0, " value a"; split; reflexivity).
  split; [exact Hentry |]. split; [| split].
  - apply (proj1 (C10_total_when_cursor_at_entry "  => true"
                    (Globals.Globals (Some (Array [Some " value a"] None))
                       (Some 0)))
             (Array [Some " value a"] None) eq_refl).
    intros _. exact Hentry.
  - apply (proj1 (proj2 (C10_total_when_cursor_at_entry "Attempt to read /a"
                           Globals.atLoad))).
    reflexivity.
  - apply (proj2 (proj2 (C10_total_when_cursor_at_entry "  => true"
                           (Globals.Globals (Some empty) None)))
             empty); reflexivity.
Defined.

(** ** Two runs over one transcript *)

(** On a buffer just reset, a line that settles the cursor is consumed
    the same way whatever the cursor was. *)
Lemma processTraceLine_fresh_cursor (line : string) (c : option nat) :
  settlesCursor line = true ->
  processTraceLine line (State empty c) = processTraceLine line initial.
Proof.
  unfold settlesCursor, processTraceLine, initial. intros H.
  destruct (isIndented _).
  - destruct (matchOutcome _); [discriminate |].
    destruct c; reflexivity.
  - destruct (isNumbered _); [discriminate |].
    destruct c; reflexivity.
Qed.

Lemma consume_fresh_cursor (line : string) (rest : list string)
    (c : option nat) :
  settlesCursor line = true ->
  consume (line :: rest) (State empty c) = consume (line :: rest) initial.
Proof.
  intros H. cbn [consume]. now rewrite processTraceLine_fresh_cursor.
Qed.

(** C8, as stated, fails: the cursor left by the first run is read by an
    outcome line at the head of the second. *)
Lemma C8_second_run_counterexample :
  exists st1 st2,
    consume ["  => false"; "  a:.write:x"] initial = Returns st1
    /\ consume ["  => false"; "  a:.write:x"] (carriedOver st1) = Returns st2
    /\ contents st1 = [Some " write a"]
    /\ contents st2 = [Some " ✗undefined"; Some " write a"]
    /\ contents st2 <> contents st1.
Proof.
  eexists. eexists.
  split; [reflexivity |]. split; [reflexivity |].
  split; [reflexivity |]. split; [reflexivity |]. discriminate.
Qed.

(** ** The orchestration of a request *)

(** The loop pushes the truthy traces, in order. *)
Lemma simulateEach_callTraces (calls : list operation) (acc : list string)
    (st : state) :
  simulateEach calls acc st =
  (let* traces := callTraces calls in ret (acc ++ contributed traces)%list) st.
Proof.
  revert acc st. induction calls as [| call calls IH]; intros acc st.
  - cbn. unfold bind, ret. now rewrite app_nil_r.
  - cbn [simulateEach callTraces]. unfold bind.
    destruct (_simulateCall call st) as [st1 [trace | e]]; [| reflexivity].
    rewrite IH. unfold bind, ret.
    destruct (callTraces calls st1) as [st2 [traces | e]]; [| reflexivity].
    f_equal. f_equal. unfold contributed.
    destruct trace as [s |]; cbn [truthyTrace omap list_omap].
    + destruct (negb (String.eqb s "")); [| reflexivity].
      now rewrite <- app_assoc.
    + reflexivity.
Qed.

(** What [_simulateCall] makes of the call's outcome. *)
Lemma _simulateCall_returns (call : operation) (st st' : state) (v : value) :
  call (resetBuffer st) = (st', Returns v) ->
  _simulateCall call st = (st', Returns None).
Proof.
  intros H. unfold _simulateCall, tryCatch, bind, ret. now rewrite H.
Qed.

Lemma _simulateCall_throws (call : operation) (st st' : state) (e : thrown) :
  call (resetBuffer st) = (st', Throws e) ->
  _simulateCall call st =
  (st',
   match isPermissionDenied e with
   | Returns denied =>
       if truthy denied
       then Returns
              (Some (arr_join (String "010" "") (simulationConsoleLogs st')))
       else match render e with
            | Returns text =>
                Returns (Some ("Got a different error in simulation: "
                               +:+ text))
            | Throws e' => Throws e'
            end
   | Throws e' => Throws e'
   end).
Proof.
  intros H. unfold _simulateCall, tryCatch, bind, ret, lift. rewrite H.
  destruct (isPermissionDenied e) as [denied | e']; [| reflexivity].
  destruct (truthy denied); [reflexivity |].
  destruct (render e); reflexivity.
Qed.








Lemma _simulateCalls_all_executed (unauth authWithCustomToken : operation)
    (calls : list operation) (st st1 st2 st3 : state) (v1 v2 : value)
    (traces : list (option string)) :
  unauth st = (st1, Returns v1) ->
  authWithCustomToken st1 = (st2, Returns v2) ->
  callTraces calls st2 = (st3, Returns traces) ->
  _simulateCalls unauth authWithCustomToken calls st =
  (st3,
   Returns (match contributed traces with
            | [] => "Unable to reproduce error in simulation"
            | _ :: _ => blankLineJoined (contributed traces)
            end)).
Proof.
  intros H1 H2 H3. unfold _simulateCalls, tryCatch, bind at 1 2 3.
  rewrite H1, H2, simulateEach_callTraces. unfold bind, ret. rewrite H3.
  cbn [app]. destruct (contributed traces); reflexivity.
Qed.

(** C4.  Once the simulated identity is authenticated and every call of
    the request has executed, [_simulateCalls] returns the fixed string
    ['Unable to reproduce error in simulation'] if no call contributed a
    trace, and otherwise the contributed traces joined with a blank line
    between them; a request of a single call that fails with a
    permission-denied error while no diagnostic line was emitted is a case
    of the former. *)
Theorem C4_result_after_all_calls
    (unauth authWithCustomToken : operation) (calls : list operation)
    (st st1 st2 st3 : state) (v1 v2 : value) (traces : list (option string)) :
  unauth st = (st1, Returns v1) ->
  authWithCustomToken st1 = (st2, Returns v2) ->
  callTraces calls st2 = (st3, Returns traces) ->
  _simulateCalls unauth authWithCustomToken calls st =
    (st3,
     Returns (match contributed traces with
              | [] => "Unable to reproduce error in simulation"
              | _ :: _ => blankLineJoined (contributed traces)
              end))
  /\ (forall e,
        calls = [lift (Throws e)] ->
        isPermissionDenied e = Returns (Bool true) ->
        _simulateCalls unauth authWithCustomToken calls st =
          (resetBuffer st2, Returns "Unable to reproduce error in simulation")).
Proof.
  intros H1 H2 H3. split.
  - exact (_simulateCalls_all_executed _ _ _ _ _ _ _ _ _ _ H1 H2 H3).
  - intros e -> He.
    rewrite (_simulateCalls_all_executed _ _ _ _ _ _ _ _ _ _ H1 H2 H3).
    cbn [callTraces] in H3. unfold bind in H3.
    rewrite (_simulateCall_throws (lift (Throws e)) st2 (resetBuffer st2) e)
      in H3 by reflexivity.
    rewrite He in H3. cbn in H3. injection H3 as <- <-. reflexivity.
Qed.

Lemma C4_result_after_all_calls_witness :
  _simulateCalls (ret Undefined) (ret Undefined)
    [lift (Throws (ThrownObject (Str "PERMISSION_DENIED") Undefined
                     "Error: PERMISSION_DENIED"))]
    (State (Array [Some " read /old"] None) (Some 0))
  = (State empty (Some 0), Returns "Unable to reproduce error in simulation").
Proof.
  pose (e := ThrownObject (Str "PERMISSION_DENIED") Undefined
               "Error: PERMISSION_DENIED").
  pose (st := State (Array [Some " read /old"] None) (Some 0)).
  refine (proj2 (C4_result_after_all_calls
                   (ret Undefined) (ret Undefined) [lift (Throws e)]
                   st st st (resetBuffer st) Undefined Undefined [Some ""]
                   _ _ _) e _ _); reflexivity.
Defined.

(** Two calls that contribute: a failure of another kind, then a denied
    write with the transcript of one failing rule check. *)
Example two_traces_joined :
  snd (_simulateCalls (ret Undefined) (ret Undefined)
         [ lift (Throws (ThrownObject (Str "network_error") Undefined
                           "Error: network_error"));
           ret Undefined;
           (fun st =>
              match consume ["FIREBASE: Attempt to write /a";
                             "FIREBASE:   /a:.write: false";
                             "FIREBASE:   => false"] st with
              | Returns st' =>
                  (st', Throws (ThrownObject (Str "PERMISSION_DENIED") Undefined
                                  "Error: PERMISSION_DENIED"))
              | Throws e => (st, Throws e)
              end) ]
         initial)
  = Returns
      ("Got a different error in simulation: Error: network_error"
       +:+ String "010" (String "010" "")
       +:+ "Attempt to write /a" +:+ String "010" "" +:+ " ✗ write /a").
Proof. reflexivity. Qed.




(** ** The simulation queue *)

Section QueueFacts.

Variable databaseUrl : string.

(** A call of [_simulate] on a reference of the database chains the task
    behind the queue, and returns the new queue. *)
Lemma _simulate_chains (now : nat) (ref : string) (f : task) (q : promise) :
  startsWith ref databaseUrl = true ->
  _simulate databaseUrl now ref f q =
  (then_ now (catch now q (fun _ => Undefined)) (fun start _ => f start),
   then_ now (catch now q (fun _ => Undefined)) (fun start _ => f start)).
Proof. intros H. unfold _simulate. now rewrite H. Qed.

(** Behind a queue that settles, fulfilled or rejected alike, the task is
    called once the queue has settled and not before it was submitted. *)
Lemma _simulate_on_settled (now : nat) (ref : string) (f : task)
    (t : nat) (o : settled) :
  startsWith ref databaseUrl = true ->
  _simulate databaseUrl now ref f (Some (t, o)) =
  (f (Nat.max now t), f (Nat.max now t)).
Proof.
  intros H. rewrite (_simulate_chains _ _ _ _ H).
  destruct o; cbn [catch then_];
    now rewrite Nat.max_assoc, Nat.max_id.
Qed.

(** Behind a queue that never settles, the task is never called. *)
Lemma _simulate_on_pending (now : nat) (ref : string) (f : task) :
  startsWith ref databaseUrl = true ->
  _simulate databaseUrl now ref f None = (None, None).
Proof. intros H. now rewrite (_simulate_chains _ _ _ _ H). Qed.

(** The queue after a sequence of submissions is the promise returned to
    the last of them. *)
Lemma submitAll_tail (calls : list (nat * string * task))
    (q q' : promise) (ps : list promise) :
  Forall (fun c => startsWith (snd (fst c)) databaseUrl = true) calls ->
  submitAll databaseUrl calls q = (ps, q') ->
  default q (last ps) = q'.
Proof.
  revert q ps. induction calls as [| [[now ref] f] calls IH];
    intros q ps Hrefs Hrun.
  - injection Hrun as <- <-. reflexivity.
  - apply Forall_cons in Hrefs as [Href Hrefs]. cbn [fst snd] in Href.
    cbn [submitAll] in Hrun. rewrite (_simulate_chains _ _ _ _ Href) in Hrun.
    destruct (submitAll databaseUrl calls _) as [ps' q''] eqn:Hrest.
    injection Hrun as <- <-.
    specialize (IH _ _ Hrefs Hrest).
    destruct ps' as [| p' ps']; [exact IH |].
    rewrite last_cons. destruct (last (p' :: ps')); exact IH.
Qed.

(** The schedule of a sequence of submissions behind a settled queue. *)
Lemma submitAll_schedule (calls : list (nat * string * task)) :
  Forall (fun c => startsWith (snd (fst c)) databaseUrl = true
                   /\ causal (snd c)) calls ->
  forall (q q' : promise) (ps : list promise) (t0 : nat) (o0 : settled),
    submitAll databaseUrl calls q = (ps, q') ->
    q = Some (t0, o0) ->
    forall (k now : nat) (ref : string) (f : task),
      calls !! k = Some (now, ref, f) ->
      (forall j, j < k -> exists t o, ps !! j = Some (Some (t, o))) ->
      exists start,
        ps !! k = Some (f start)
        /\ now <= start
        /\ t0 <= start
        /\ (forall j t o, j < k -> ps !! j = Some (Some (t, o)) -> t <= start).
Proof.
  induction calls as [| [[now0 ref0] f0] calls IH];
    intros Hok q q' ps t0 o0 Hrun -> k now ref f Hk Hsettled.
  - discriminate Hk.
  - apply Forall_cons in Hok as [[Href Hcausal] Hok].
    cbn [fst snd] in Href, Hcausal.
    cbn [submitAll] in Hrun.
    rewrite (_simulate_on_settled _ _ _ _ _ Href) in Hrun.
    destruct (submitAll databaseUrl calls _) as [ps' q''] eqn:Hrest.
    injection Hrun as <- <-.
    destruct k as [| k].
    + injection Hk as <- <- <-. exists (Nat.max now0 t0).
      split; [reflexivity |]. split; [lia |]. split; [lia |].
      intros j t o Hj. lia.
    + cbn in Hk.
      destruct (Hsettled 0 ltac:(lia)) as (t1 & o1 & H0).
      cbn in H0. injection H0 as H0.
      destruct (IH Hok _ _ _ t1 o1 Hrest H0 k now ref f Hk) as
        (start & Hstart & Hnow & Ht1 & Hearlier).
      { intros j Hj. apply (Hsettled (S j)). lia. }
      pose proof (Hcausal _ _ _ H0) as Hrun0.
      exists start. split; [exact Hstart |]. split; [exact Hnow |].
      split; [lia |].
      intros [| j] t o Hj Hpj.
      * cbn in Hpj. rewrite H0 in Hpj. injection Hpj as <- _. exact Ht1.
      * cbn in Hpj. apply (Hearlier j t o); [lia | exact Hpj].
Qed.

End QueueFacts.

(** C6.  For every sequence of tasks submitted to the simulation queue
    (calls of [_simulate] on references of the database, each task
    settling no earlier than it is called): every call makes its task the
    tail of the chain and returns that tail as its promise; a task whose
    predecessors have all settled, fulfilled or rejected alike, is run, at
    an instant no earlier than its submission; and each of its
    predecessors has run from start to settlement before that instant, so
    the tasks run one at a time, in the order of submission. *)
Theorem C6_queue_runs_tasks_in_order
    (databaseUrl : string) (calls : list (nat * string * task))
    (ps : list promise) (q' : promise) :
  Forall (fun c => startsWith (snd (fst c)) databaseUrl = true
                   /\ causal (snd c)) calls ->
  submitAll databaseUrl calls resolve = (ps, q') ->
  default resolve (last ps) = q'
  /\ (forall now ref f q,
        startsWith ref databaseUrl = true ->
        fst (_simulate databaseUrl now ref f q)
        = snd (_simulate databaseUrl now ref f q))
  /\ (forall k now ref f,
        calls !! k = Some (now, ref, f) ->
        (forall j, j < k -> exists t o, ps !! j = Some (Some (t, o))) ->
        exists start,
          ps !! k = Some (f start)
          /\ now <= start
          /\ (forall j now' ref' f',
                j < k ->
                calls !! j = Some (now', ref', f') ->
                exists start' t o,
                  ps !! j = Some (f' start')
                  /\ f' start' = Some (t, o)
                  /\ start' <= t
                  /\ t <= start)).
Proof.
  intros Hok Hrun. split; [| split].
  - apply (submitAll_tail databaseUrl calls); [| exact Hrun].
    eapply Forall_impl; [exact Hok |]. now intros c [H _].
  - intros now ref f q Href. now rewrite (_simulate_chains _ _ _ _ _ Href).
  - intros k now ref f Hk Hsettled.
    destruct (submitAll_schedule databaseUrl calls Hok _ _ _ 0 (Fulfilled Undefined)
                Hrun eq_refl k now ref f Hk Hsettled)
      as (start & Hstart & Hnow & _ & Hearlier).
    exists start. split; [exact Hstart |]. split; [exact Hnow |].
    intros j now' ref' f' Hj Hcall.
    destruct (submitAll_schedule databaseUrl calls Hok _ _ _ 0 (Fulfilled Undefined)
                Hrun eq_refl j now' ref' f' Hcall)
      as (start' & Hstart' & _).
    { intros i Hi. apply Hsettled. lia. }
    destruct (Hsettled j Hj) as (t & o & Hpj).
    exists start', t, o. split; [exact Hstart' |].
    assert (Hf : f' start' = Some (t, o))
      by (unfold promise in *; rewrite Hstart' in Hpj; now injection Hpj).
    split; [exact Hf |]. split.
    + apply (proj1 (Forall_lookup _ _) Hok) in Hcall as [_ Hcausal].
      exact (Hcausal _ _ _ Hf).
    + exact (Hearlier j t o Hj Hpj).
Qed.

Lemma C6_queue_runs_tasks_in_order_witness :
  exists start,
    [Some (6, Rejected ThrownNull); Some (7, Fulfilled (Str "trace"))] !! 1
    = Some (Some (start + 1, Fulfilled (Str "trace")))
    /\ 2 <= start
    /\ (forall j now' ref' f',
          j < 1 ->
          [(1, "https://db/a", fun s => Some (s + 5, Rejected ThrownNull));
           (2, "https://db/b", fun s => Some (s + 1, Fulfilled (Str "trace")))]
            !! j = Some (now', ref', f') ->
          exists start' t o,
            [Some (6, Rejected ThrownNull); Some (7, Fulfilled (Str "trace"))]
              !! j = Some (f' start')
            /\ f' start' = Some (t, o)
            /\ start' <= t
            /\ t <= start).
Proof.
  assert (Hok :
    Forall (fun c : nat * string * task =>
              startsWith (snd (fst c)) "https://db/" = true /\ causal (snd c))
      [(1, "https://db/a", fun s => Some (s + 5, Rejected ThrownNull));
       (2, "https://db/b", fun s => Some (s + 1, Fulfilled (Str "trace")))]).
  { repeat constructor; cbn [snd]; intros start t o [= <- _]; lia. }
  refine (proj2 (proj2
            (C6_queue_runs_tasks_in_order "https://db/" _ _ _ Hok eq_refl))
            1 2 "https://db/b"
            (fun s => Some (s + 1, Fulfilled (Str "trace"))) eq_refl _).
  intros j Hj. exists 6, (Rejected ThrownNull).
  destruct j as [| j]; [reflexivity | lia].
Defined.

(** ** The marker of the diagnostic lines *)

Lemma strip_prefix_length (p s r : string) :
  strip_prefix p s = Some r ->
  String.length s = String.length p + String.length r.
Proof.
  revert s. induction p as [| a p IH]; intros s H.
  - injection H as ->. reflexivity.
  - destruct s as [| b s]; [discriminate |]. cbn [strip_prefix] in H.
    destruct (Ascii.eqb a b); [| discriminate].
    cbn [String.length]. rewrite (IH _ H). reflexivity.
Qed.

Lemma strip_prefix_append (p s : string) : strip_prefix p (p +:+ s) = Some s.
Proof.
  induction p as [| a p IH]; [reflexivity |].
  simpl. now rewrite Ascii.eqb_refl.
Qed.

Lemma strip_prefix_inv (p s r : string) :
  strip_prefix p s = Some r -> s = p +:+ r.
Proof.
  revert s. induction p as [| a p IH]; intros s H.
  - now injection H as ->.
  - destruct s as [| b s]; [discriminate |]. cbn [strip_prefix] in H.
    destruct (Ascii.eqb_spec a b) as [-> |]; [| discriminate].
    simpl. now rewrite (IH _ H).
Qed.

(** The line after one repetition of the marker: the line feed that may
    follow the marker goes with it. *)
Lemma after_marker_length (rest : string) :
  String.length
    (match strip_prefix (String "010" "") rest with
     | Some rest' => rest'
     | None => rest
     end) <= String.length rest.
Proof.
  destruct (strip_prefix (String "010" "") rest) as [rest' |] eqn:H; [| lia].
  apply strip_prefix_length in H. rewrite H. lia.
Qed.

(** With fuel for the whole line, no marker is left at the start. *)
Lemma strip_markers_complete (fuel : nat) (line : string) :
  String.length line <= fuel ->
  strip_prefix "FIREBASE: " (strip_markers fuel line) = None.
Proof.
  revert line. induction fuel as [| fuel IH]; intros line Hlen.
  - destruct line; [reflexivity | cbn in Hlen; lia].
  - cbn [strip_markers].
    destruct (strip_prefix "FIREBASE: " line) as [rest |] eqn:H; [| exact H].
    apply IH. pose proof (after_marker_length rest) as Hafter.
    apply strip_prefix_length in H. cbn [String.length] in H. lia.
Qed.

(** More fuel than the length of the line changes nothing. *)
Lemma strip_markers_fuel (fuel fuel' : nat) (line : string) :
  String.length line <= fuel ->
  String.length line <= fuel' ->
  strip_markers fuel line = strip_markers fuel' line.
Proof.
  revert fuel' line. induction fuel as [| fuel IH]; intros fuel' line H H'.
  - destruct line; [| cbn in H; lia]. now destruct fuel'.
  - destruct fuel' as [| fuel'].
    + destruct line; [reflexivity | cbn in H'; lia].
    + cbn [strip_markers].
      destruct (strip_prefix "FIREBASE: " line) as [rest |] eqn:Hm;
        [| reflexivity].
      pose proof (after_marker_length rest) as Hafter.
      apply strip_prefix_length in Hm. cbn [String.length] in Hm.
      apply IH; lia.
Qed.

Lemma stripMarker_unmarked (line : string) :
  strip_prefix "FIREBASE: " line = None -> stripMarker line = line.
Proof.
  intros H. unfold stripMarker.
  destruct (String.length line); cbn [strip_markers]; [| rewrite H];
    reflexivity.
Qed.

(** X1.  Stripping removes every repetition of the marker: what is left
    of a line never starts with the marker, and stripping it again
    changes nothing. *)
Theorem X1_stripMarker_complete (line : string) :
  startsWith (stripMarker line) "FIREBASE: " = false
  /\ stripMarker (stripMarker line) = stripMarker line.
Proof.
  assert (H : strip_prefix "FIREBASE: " (stripMarker line) = None)
    by (apply strip_markers_complete; lia).
  split.
  - unfold startsWith. now rewrite H.
  - now apply stripMarker_unmarked.
Qed.

Lemma stripMarker_marker_line_feed (line : string) :
  stripMarker ("FIREBASE: " +:+ String "010" line) = stripMarker line.
Proof.
  unfold stripMarker.
  change (String.length ("FIREBASE: " +:+ String "010" line))
    with (S (10 + String.length line)).
  cbn [strip_markers].
  rewrite (strip_prefix_append "FIREBASE: " (String "010" line)).
  cbn [strip_prefix]. rewrite Ascii.eqb_refl.
  apply strip_markers_fuel; lia.
Qed.

Lemma stripMarker_marker (line : string) :
  strip_prefix (String "010" "") line = None ->
  stripMarker ("FIREBASE: " +:+ line) = stripMarker line.
Proof.
  intros H. unfold stripMarker.
  change (String.length ("FIREBASE: " +:+ line))
    with (S (9 + String.length line)).
  cbn [strip_markers].
  rewrite (strip_prefix_append "FIREBASE: " line), H.
  apply strip_markers_fuel; lia.
Qed.

(** X2.  The marker is transparent to the parser: a line behind one more
    repetition of the marker, with or without the line feed after it, is
    consumed as the line itself (the line feed that follows a marker
    belongs to the marker, so the line is one that does not start with a
    line feed when none is written). *)
Theorem X2_marker_transparent (line : string) (st : state) :
  processTraceLine ("FIREBASE: " +:+ String "010" line) st
    = processTraceLine line st
  /\ (startsWith line (String "010" "") = false ->
      processTraceLine ("FIREBASE: " +:+ line) st = processTraceLine line st).
Proof.
  split.
  - unfold processTraceLine. now rewrite stripMarker_marker_line_feed.
  - intros H. unfold processTraceLine. rewrite stripMarker_marker; [reflexivity |].
    unfold startsWith in H.
    destruct (strip_prefix (String "010" "") line); [discriminate | reflexivity].
Qed.

Lemma X2_marker_transparent_witness :
  startsWith "  /a:.write: false" (String "010" "") = false
  /\ processTraceLine ("FIREBASE: " +:+ "  /a:.write: false") initial
     = processTraceLine "  /a:.write: false" initial.
Proof.
  split; [reflexivity |].
  apply (proj2 (X2_marker_transparent "  /a:.write: false" initial)).
  reflexivity.
Defined.

(** ** What the rewriting of a rule check produces *)

Lemma tag_cases (s : string) :
  fst (tag s) = None \/ fst (tag s) = Some "read"
  \/ fst (tag s) = Some "write" \/ fst (tag s) = Some "validate".
Proof.
  unfold tag.
  destruct (strip_prefix ".read:" s); [now right; left |].
  destruct (strip_prefix ".write:" s); [now right; right; left |].
  destruct (strip_prefix ".validate:" s); [now right; right; right |].
  now left.
Qed.

(** X3.  The rewriting leaves a line as it is or turns it into a pending
    entry: a line that starts with a space and one of the kinds [read],
    [write] and [value], that reads as indented and never as an outcome.
    So an outcome line is never a rewritten one. *)
Theorem X3_rewritten_line_is_pending_entry (line : string) :
  (rewriteRuleCheck line = line
   \/ (isIndented (rewriteRuleCheck line) = true
       /\ matchOutcome (rewriteRuleCheck line) = None
       /\ (startsWith (rewriteRuleCheck line) " read " = true
           \/ startsWith (rewriteRuleCheck line) " write " = true
           \/ startsWith (rewriteRuleCheck line) " value " = true)))
  /\ (forall outcome,
        matchOutcome (rewriteRuleCheck line) = Some outcome ->
        rewriteRuleCheck line = line).
Proof.
  assert (H : rewriteRuleCheck line = line
              \/ (isIndented (rewriteRuleCheck line) = true
                  /\ matchOutcome (rewriteRuleCheck line) = None
                  /\ (startsWith (rewriteRuleCheck line) " read " = true
                      \/ startsWith (rewriteRuleCheck line) " write " = true
                      \/ startsWith (rewriteRuleCheck line) " value " = true))).
  { unfold rewriteRuleCheck.
    destruct (span is_space line) as [ws body].
    destruct ws as [| c ws]; [now left |].
    destruct (last_colon body) as [[g1 after] |]; [| now left].
    pose proof (tag_cases after) as Htag.
    destruct (tag after) as [g2 after'].
    destruct (span _ after') as [matched unmatched].
    right. cbn [fst] in Htag.
    destruct Htag as [-> | [-> | [-> | ->]]];
      (split; [reflexivity |]); (split; [reflexivity |]).
    - now left.
    - now left.
    - now right; left.
    - now right; right. }
  split; [exact H |].
  intros outcome Hout. destruct H as [H | (_ & Hnone & _)]; [exact H |].
  congruence.
Qed.

(** ** The lines of a transcript, kind by kind *)

Lemma processTraceLine_check (line : string) (st : state) :
  isCheckLine line = true ->
  processTraceLine line st =
  Returns (State (Array (settledEntries st ++ [Some (entryOf line)])
                        (undefined_slot (simulationConsoleLogs st)))
                 (Some (length (settledEntries st)))).
Proof.
  unfold isCheckLine, entryOf, processTraceLine, settledEntries, contents.
  intros H. apply andb_true_iff in H as [Hind Hout]. rewrite Hind.
  destruct (matchOutcome _); [discriminate |].
  unfold arr_push, arr_length, arr_pop. f_equal.
  destruct (atLastSlot st); cbn [elems undefined_slot];
    rewrite length_app; cbn [length]; do 2 f_equal; lia.
Qed.

Lemma processTraceLine_top (line : string) (st : state) :
  isTopLine line = true ->
  processTraceLine line st =
  Returns (State (Array (settledEntries st ++ [Some (entryOf line)])
                        (undefined_slot (simulationConsoleLogs st)))
                 None).
Proof.
  unfold isTopLine, entryOf, processTraceLine, settledEntries, contents.
  intros H. apply andb_true_iff in H as [Hind Hnum].
  apply negb_true_iff in Hind, Hnum. rewrite Hind, Hnum.
  unfold arr_push, arr_pop. destruct (atLastSlot st); reflexivity.
Qed.

Lemma processTraceLine_location (line : string) (st : state) :
  isLocationLine line = true ->
  processTraceLine line st =
  Returns (State (Array (contents st ++ [locationEntry line])
                        (undefined_slot (simulationConsoleLogs st)))
                 (lastTestIndex st)).
Proof.
  unfold isLocationLine, entryOf, processTraceLine, locationEntry, contents.
  intros H. apply andb_true_iff in H as [Hind Hnum].
  apply negb_true_iff in Hind. unfold entryOf. rewrite Hind, Hnum. reflexivity.
Qed.

Lemma consume_locations (lines : list string) (st : state) :
  Forall (fun line => isLocationLine line = true) lines ->
  consume lines st =
  Returns (State (Array (contents st ++ map locationEntry lines)
                        (undefined_slot (simulationConsoleLogs st)))
                 (lastTestIndex st)).
Proof.
  revert st. induction lines as [| line lines IH]; intros st Hall.
  - cbn [consume map]. rewrite app_nil_r. now destruct st as [[? ?] ?].
  - apply Forall_cons in Hall as [Hline Hall].
    cbn [consume]. rewrite (processTraceLine_location _ _ Hline).
    unfold mbind, result_bind. rewrite (IH _ Hall).
    unfold contents. cbn [simulationConsoleLogs elems undefined_slot lastTestIndex map].
    now rewrite <- app_assoc.
Qed.

Lemma consume_app (lines lines' : list string) (st : state) :
  consume (lines ++ lines') st = (st' ← consume lines st; consume lines' st').
Proof.
  revert st. induction lines as [| line lines IH]; intros st; [reflexivity |].
  cbn [app consume]. unfold mbind, result_bind.
  destruct (processTraceLine line st) as [st1 |]; [| reflexivity].
  rewrite IH. reflexivity.
Qed.

Lemma atLastSlot_pending (entries : list (option string)) (entry : option string)
    (slot : option string) :
  atLastSlot (State (Array (entries ++ [entry]) slot) (Some (length entries)))
  = true.
Proof.
  unfold atLastSlot, arr_length. cbn [lastTestIndex simulationConsoleLogs elems].
  rewrite length_app. cbn [length]. apply Nat.eqb_eq. lia.
Qed.

Lemma settledEntries_pending (entries : list (option string))
    (entry : option string) (slot : option string) :
  settledEntries
    (State (Array (entries ++ [entry]) slot) (Some (length entries)))
  = entries.
Proof.
  unfold settledEntries. rewrite atLastSlot_pending.
  unfold contents. cbn [simulationConsoleLogs elems]. apply removelast_last.
Qed.

(** X4.  Rule checks that get no outcome do not pile up: a rule-check line
    followed by another rule-check line, or by an ordinary top-level
    line, leaves the parser as the second line alone would, whatever the
    state. *)
Theorem X4_pending_check_superseded (check line : string) (st : state) :
  isCheckLine check = true ->
  settlesCursor line = true ->
  consume [check; line] st = consume [line] st.
Proof.
  intros Hcheck Hline. cbn [consume].
  rewrite (processTraceLine_check _ _ Hcheck). unfold mbind, result_bind.
  assert (Hkind : isCheckLine line = true \/ isTopLine line = true).
  { unfold settlesCursor in Hline. unfold isCheckLine, isTopLine, entryOf.
    destruct (isIndented _); [left | right]; cbn [andb negb]; exact Hline. }
  destruct Hkind as [H | H].
  - rewrite !(processTraceLine_check _ _ H), settledEntries_pending. reflexivity.
  - rewrite !(processTraceLine_top _ _ H), settledEntries_pending. reflexivity.
Qed.

Lemma X4_pending_check_superseded_witness :
  isCheckLine "  /a:.read: true" = true
  /\ settlesCursor "  /a/b:.write: false" = true
  /\ consume ["  /a:.read: true"; "  /a/b:.write: false"]
       (State (Array [Some "Attempt to write /a/b"] None) None)
     = consume ["  /a/b:.write: false"]
         (State (Array [Some "Attempt to write /a/b"] None) None).
Proof.
  split; [reflexivity |]. split; [reflexivity |].
  apply (X4_pending_check_superseded "  /a:.read: true" "  /a/b:.write: false");
    reflexivity.
Defined.

Lemma insert_pending {A} (l1 l2 : list A) (x y : A) :
  <[length l1 := x]> (l1 ++ y :: l2)%list = (l1 ++ x :: l2)%list.
Proof. rewrite insert_app_r_alt by lia. now rewrite Nat.sub_diag. Qed.

Lemma lookup_pending {A} (l1 l2 : list A) (y : A) :
  (l1 ++ y :: l2)%list !! length l1 = Some y.
Proof. induction l1 as [| a l1 IH]; [reflexivity | exact IH]. Qed.

(** The outcome that reaches a pending entry [entry] at the end of
    [entries], rule-location entries [locations] having followed it. *)
Lemma processTraceLine_outcome_pending (out : string) (outcome : bool)
    (entries locations : list (option string)) (entry : string)
    (slot : option string) :
  outcomeOf out = Some outcome ->
  processTraceLine out
    (State (Array (entries ++ Some entry :: locations) slot)
           (Some (length entries)))
  = Returns
      (State
         (Array
            (entries
             ++ (if outcome && startsWith entry " value" then []
                 else [Some ((if outcome then " ✓" else " ✗") +:+ entry)])
             ++ locations)
            slot)
         None).
Proof.
  intros Hout. rewrite (processTraceLine_outcome _ _ _ Hout).
  cbn [simulationConsoleLogs lastTestIndex arr_get elems].
  rewrite lookup_pending. unfold concat_entry, arr_splice1.
  cbn [default from_option id entryStartsWith elems undefined_slot].
  unfold mbind, result_bind.
  destruct outcome; cbn [andb].
  - destruct (startsWith entry " value").
    + now rewrite delete_middle.
    + unfold arr_set, arr_length. cbn [elems undefined_slot].
      replace (length entries <? length (entries ++ Some entry :: locations))
        with true
        by (symmetry; apply Nat.ltb_lt; rewrite length_app; cbn; lia).
      now rewrite insert_pending.
  - unfold arr_set, arr_length. cbn [elems undefined_slot].
    replace (length entries <? length (entries ++ Some entry :: locations))
      with true
      by (symmetry; apply Nat.ltb_lt; rewrite length_app; cbn; lia).
    now rewrite insert_pending.
Qed.

Lemma consume_check_outcome (check : string) (locations : list string)
    (out : string) (outcome : bool) (st : state) :
  isCheckLine check = true ->
  Forall (fun line => isLocationLine line = true) locations ->
  outcomeOf out = Some outcome ->
  consume (check :: locations ++ [out]) st =
  Returns
    (State
       (Array
          (settledEntries st
           ++ (if outcome && startsWith (entryOf check) " value" then []
               else [Some ((if outcome then " ✓" else " ✗")
                           +:+ entryOf check)])
           ++ map locationEntry locations)
          (undefined_slot (simulationConsoleLogs st)))
       None).
Proof.
  intros Hcheck Hlocations Hout.
  cbn [consume]. rewrite (processTraceLine_check _ _ Hcheck).
  unfold mbind at 1, result_bind at 1.
  rewrite consume_app, (consume_locations _ _ Hlocations).
  unfold mbind at 1, result_bind at 1.
  cbn [consume contents simulationConsoleLogs elems undefined_slot lastTestIndex].
  rewrite <- app_assoc. cbn [app].
  rewrite (processTraceLine_outcome_pending _ _ _ _ _ _ Hout).
  reflexivity.
Qed.

(** X5.  A rule check and its outcome.  From any state, a rule-check line,
    any number of rule-location lines and then an outcome line are
    consumed without an exception and leave no pending cursor; the entry
    of the check stands before the entries of the location lines,
    prefixed with [" ✓"] or [" ✗"], except that a [value] check that
    passed is removed; the entries before it are those of the state,
    without a pending entry at their end. *)
Theorem X5_check_then_outcome (check : string) (locations : list string)
    (out : string) (outcome : bool) (st : state) :
  isCheckLine check = true ->
  Forall (fun line => isLocationLine line = true) locations ->
  outcomeOf out = Some outcome ->
  consume (check :: locations ++ [out]) st =
  Returns
    (State
       (Array
          (settledEntries st
           ++ (if outcome && startsWith (entryOf check) " value" then []
               else [Some ((if outcome then " ✓" else " ✗")
                           +:+ entryOf check)])
           ++ map locationEntry locations)
          (undefined_slot (simulationConsoleLogs st)))
       None).
Proof. apply consume_check_outcome. Qed.

Lemma X5_check_then_outcome_witness :
  consume ("  /a:.write: auth != null" :: ["1:1: auth != null"] ++ ["  => false"])
    (State (Array [Some "Attempt to write /a"; Some " read /"] None) (Some 1))
  = Returns
      (State (Array [Some "Attempt to write /a"; Some " ✗ write /a";
                     Some "   1:1: auth != null"] None)
             None).
Proof.
  refine (X5_check_then_outcome "  /a:.write: auth != null"
            ["1:1: auth != null"] "  => false" false
            (State (Array [Some "Attempt to write /a"; Some " read /"] None)
                   (Some 1)) _ _ _).
  - reflexivity.
  - repeat constructor.
  - reflexivity.
Defined.

(** ** Invariants of the buffer *)

Lemma Forall_removelast {A} (P : A -> Prop) (l : list A) :
  Forall P l -> Forall P (removelast l).
Proof. intros H. rewrite removelast_firstn_len. now apply Forall_take. Qed.

Lemma length_removelast_le {A} (l : list A) : length (removelast l) <= length l.
Proof. rewrite removelast_firstn_len, length_take. lia. Qed.

Lemma length_delete_le {A} (i : nat) (l : list A) :
  length (delete i l) <= length l.
Proof.
  revert i. induction l as [| a l IH]; intros [| i];
    change (delete ?j ?k) with (list_delete j k); cbn [list_delete length];
    try lia.
  specialize (IH i). change (list_delete i l) with (delete i l). lia.
Qed.

(** What a step does to the entries, for a cursor that is valid. *)
Lemma processTraceLine_entries (line : string) (st st' : state) :
  cursorValid st ->
  processTraceLine line st = Returns st' ->
  (noHoles st -> noHoles st')
  /\ length (contents st') <= S (length (contents st)).
Proof.
  unfold processTraceLine, cursorValid, noHoles, contents, arr_length.
  intros Hvalid Hrun.
  destruct (isIndented _).
  - destruct (matchOutcome _) as [outcome |].
    + unfold mbind, result_bind in Hrun.
      destruct (if outcome then _ else _) as [uninteresting |]; [| discriminate].
      injection Hrun as <-. cbn [simulationConsoleLogs].
      destruct uninteresting.
      * unfold arr_splice1. cbn [elems]. split.
        -- apply Forall_delete.
        -- pose proof (length_delete_le (default 0 (lastTestIndex st))
                         (elems (simulationConsoleLogs st))). lia.
      * unfold arr_set, arr_length.
        destruct (lastTestIndex st) as [k |].
        -- replace (k <? length (elems (simulationConsoleLogs st))) with true
             by (symmetry; now apply Nat.ltb_lt).
           cbn [elems]. rewrite length_insert. split; [| lia].
           intros Hdense. apply Forall_insert; [exact Hdense | eauto].
        -- cbn [elems]. split; [trivial | lia].
    + injection Hrun as <-. unfold arr_push, arr_pop.
      cbn [simulationConsoleLogs elems].
      destruct (atLastSlot st); cbn [elems]; rewrite length_app; cbn [length].
      * pose proof (length_removelast_le (elems (simulationConsoleLogs st))).
        split; [| lia]. intros Hdense. apply Forall_app. split.
        -- now apply Forall_removelast.
        -- repeat constructor; eauto.
      * split; [| lia]. intros Hdense. apply Forall_app. split; [exact Hdense |].
        repeat constructor; eauto.
  - destruct (isNumbered _); injection Hrun as <-; unfold arr_push, arr_pop;
      cbn [simulationConsoleLogs elems].
    + rewrite length_app. cbn [length]. split; [| lia].
      intros Hdense. apply Forall_app. split; [exact Hdense |]. repeat constructor; eauto.
    + destruct (atLastSlot st); cbn [elems]; rewrite length_app; cbn [length].
      * pose proof (length_removelast_le (elems (simulationConsoleLogs st))).
        split; [| lia]. intros Hdense. apply Forall_app. split.
        -- now apply Forall_removelast.
        -- repeat constructor; eauto.
      * split; [| lia]. intros Hdense. apply Forall_app. split; [exact Hdense |].
        repeat constructor; eauto.
Qed.

(** X6.  Along a transcript consumed from a state whose cursor is "none"
    or an index into the buffer and whose buffer has no hole, the cursor
    stays valid and the buffer gets no hole: every entry is a string. *)
Theorem X6_buffer_without_holes (lines : list string) (st st' : state) :
  cursorValid st ->
  noHoles st ->
  consume lines st = Returns st' ->
  cursorValid st' /\ noHoles st'.
Proof.
  revert st. induction lines as [| line lines IH]; intros st Hvalid Hholes Hrun.
  - injection Hrun as <-. now split.
  - cbn [consume] in Hrun. unfold mbind, result_bind in Hrun.
    destruct (processTraceLine line st) as [st1 |] eqn:Hstep; [| discriminate].
    apply (IH st1); [| | exact Hrun].
    + exact (processTraceLine_cursorValid _ _ _ Hvalid Hstep).
    + now apply (processTraceLine_entries _ _ _ Hvalid Hstep).
Qed.

Lemma X6_buffer_without_holes_witness :
  cursorValid initial
  /\ noHoles initial
  /\ consume ["Attempt to read /a"; "  /a:.read: false"] initial
     = Returns (State (Array [Some "Attempt to read /a"; Some " read /a"] None)
                      (Some 1))
  /\ cursorValid (State (Array [Some "Attempt to read /a"; Some " read /a"] None)
                        (Some 1))
  /\ noHoles (State (Array [Some "Attempt to read /a"; Some " read /a"] None)
                    (Some 1)).
Proof.
  assert (Hvalid : cursorValid initial) by exact I.
  assert (Hholes : noHoles initial) by constructor.
  split; [exact Hvalid |]. split; [exact Hholes |]. split; [reflexivity |].
  exact (X6_buffer_without_holes
           ["Attempt to read /a"; "  /a:.read: false"] initial
           (State (Array [Some "Attempt to read /a"; Some " read /a"] None)
                  (Some 1))
           Hvalid Hholes eq_refl).
Defined.

(** X7.  From a state whose cursor is "none" or an index into the buffer,
    a transcript adds one entry per line at most. *)
Theorem X7_one_entry_per_line_at_most (lines : list string) (st st' : state) :
  cursorValid st ->
  consume lines st = Returns st' ->
  length (contents st') <= length (contents st) + length lines.
Proof.
  revert st. induction lines as [| line lines IH]; intros st Hvalid Hrun.
  - injection Hrun as <-. lia.
  - cbn [consume] in Hrun. unfold mbind, result_bind in Hrun.
    destruct (processTraceLine line st) as [st1 |] eqn:Hstep; [| discriminate].
    pose proof (processTraceLine_cursorValid _ _ _ Hvalid Hstep) as Hvalid1.
    pose proof (proj2 (processTraceLine_entries _ _ _ Hvalid Hstep)) as Hstep1.
    specialize (IH st1 Hvalid1 Hrun). cbn [length]. lia.
Qed.

Lemma X7_one_entry_per_line_at_most_witness :
  length (contents (State (Array [Some "Attempt to read /a"; Some " ✗ read /a"]
                                 None) None))
  <= length (contents initial)
     + length ["Attempt to read /a"; "  /:.read: false"; "  /a:.read: false";
               "  => false"].
Proof.
  apply (X7_one_entry_per_line_at_most
           ["Attempt to read /a"; "  /:.read: false"; "  /a:.read: false";
            "  => false"]
           initial
           (State (Array [Some "Attempt to read /a"; Some " ✗ read /a"] None)
                  None)).
  - exact I.
  - reflexivity.
Defined.

(** X8.  [processTraceLine] throws in two cases only: no call has yet
    assigned an array to [simulationConsoleLogs], and then it throws on
    every line; or the line is an outcome [=> true] and the array holds
    nothing under the cursor (no element at that index, or no property
    named ["undefined"] when the cursor is "none").  On an array, an
    outcome [=> false] and the lines of every other kind never throw. *)
Theorem X8_processTraceLine_throws_iff (line : string) (g : Globals.globals) :
  (exists e, Globals.processTraceLine line g = Throws e)
  <-> Globals.logs g = None
      \/ (exists buffer,
            Globals.logs g = Some buffer
            /\ outcomeOf line = Some true
            /\ arr_get buffer (Globals.index g) = None).
Proof.
  unfold Globals.processTraceLine.
  destruct (Globals.logs g) as [buffer |].
  - split.
    + intros [e He]. right. exists buffer. split; [reflexivity |].
      destruct (outcomeOf line) as [[|] |] eqn:Hline.
      * split; [reflexivity |].
        destruct (arr_get buffer (Globals.index g)) as [s |] eqn:Hget;
          [| reflexivity].
        destruct (processTraceLine_true_on_entry line
                    (State buffer (Globals.index g)) s Hline Hget) as [st' H].
        rewrite H in He. discriminate He.
      * destruct (processTraceLine_not_outcome line
                    (State buffer (Globals.index g))) as [st' H];
          [congruence |]. rewrite H in He. discriminate He.
      * destruct (processTraceLine_not_outcome line
                    (State buffer (Globals.index g))) as [st' H];
          [congruence |]. rewrite H in He. discriminate He.
    + intros [H | (buffer' & [= <-] & Hline & Hget)]; [discriminate |].
      destruct (processTraceLine_true_on_undefined line
                  (State buffer (Globals.index g)) Hline Hget) as [e ->].
      unfold mbind, result_bind. eauto.
  - split; [intros _; now left | intros _; eauto].
Qed.

(** ** The console filter *)

Lemma interceptConsoleLog_intercepted (c : console) :
  consoleIntercepted (interceptConsoleLog c) = true.
Proof.
  unfold interceptConsoleLog.
  destruct (consoleIntercepted c) eqn:H; [exact H | reflexivity].
Qed.

(** X9.  The filter is installed once: however often [interceptConsoleLog]
    is called, the console is as after the first call, and over a console
    not yet intercepted that is one layer of the filter over the function
    that was bound to [console.log]. *)
Theorem X9_interceptConsoleLog_once (c : console) (n : nat) :
  Nat.iter (S n) interceptConsoleLog c = interceptConsoleLog c
  /\ (consoleIntercepted c = false ->
      Nat.iter (S n) interceptConsoleLog c
      = Console (Filter (consoleLog c)) true).
Proof.
  assert (H : Nat.iter (S n) interceptConsoleLog c = interceptConsoleLog c).
  { induction n as [| n IH]; [reflexivity |].
    change (Nat.iter (S (S n)) interceptConsoleLog c)
      with (interceptConsoleLog (Nat.iter (S n) interceptConsoleLog c)).
    rewrite IH. unfold interceptConsoleLog at 1.
    now rewrite interceptConsoleLog_intercepted. }
  split; [exact H |].
  intros Hfresh. rewrite H. unfold interceptConsoleLog. now rewrite Hfresh.
Qed.

Lemma X9_interceptConsoleLog_once_witness :
  Nat.iter 3 interceptConsoleLog (Console Runtime false)
  = Console (Filter Runtime) true.
Proof.
  exact (proj2 (X9_interceptConsoleLog_once (Console Runtime false) 2) eq_refl).
Defined.


(** ** The classifier and the calls *)

Lemma isPermissionDenied_opaque_object (code message : value) :
  isPermissionDenied (ThrownOpaque code message)
  = isPermissionDenied (ThrownObject code message "").
Proof. now rewrite isPermissionDenied_opaque, isPermissionDenied_object. Qed.

Lemma isPermissionDenied_throws (error : thrown) :
  (exists e, isPermissionDenied error = Throws e) <-> classifierThrows error.
Proof.
  assert (Hobject : forall code message text,
            (exists e, isPermissionDenied (ThrownObject code message text)
                       = Throws e)
            <-> classifierThrows (ThrownObject code message text)).
  { intros code message text.
    rewrite isPermissionDenied_object. unfold classifierThrows. cbn zeta.
    destruct (if truthy code then code else message) as [| | [|] | n | s];
      cbn [truthy negb].
    + split; [intros [e H]; discriminate | contradiction].
    + split; [intros [e H]; discriminate | contradiction].
    + split; [intros _; exact I | intros _; eexists; reflexivity].
    + split; [intros [e H]; discriminate | contradiction].
    + destruct (Z.eqb_spec n 0) as [-> | Hn]; cbn [negb].
      * split; [intros [e H]; discriminate | intros H; now contradiction H].
      * split; [intros _; exact Hn | intros _; eexists; reflexivity].
    + destruct (negb (String.eqb s ""));
        (split; [intros [e H]; discriminate | contradiction]). }
  destruct error as [| | code message text | code message].
  - split; [intros _; exact I | intros _; eexists; reflexivity].
  - split; [intros _; exact I | intros _; eexists; reflexivity].
  - apply Hobject.
  - rewrite isPermissionDenied_opaque_object. apply (Hobject code message "").
Qed.

(** X11.  [isPermissionDenied] throws in two cases only: the error is
    [undefined] or [null], or the value it selects
    ([error.code || error.message]) is truthy and no string ([true], or a
    number other than 0), which has no [toLowerCase]. *)
Theorem X11_isPermissionDenied_throws_iff (error : thrown) :
  (exists e, isPermissionDenied error = Throws e) <-> classifierThrows error.
Proof. apply isPermissionDenied_throws. Qed.

(** The classifier returns [true] for the errors the words of the
    specification call denied; when it returns, its value is truthy for
    them and for no other. *)
Lemma isPermissionDenied_denied (error : thrown) :
  deniedWhenCodeFalsy error -> isPermissionDenied error = Returns (Bool true).
Proof.
  destruct error as [| | code message text | code message];
    try contradiction; intros H.
  - rewrite isPermissionDenied_object. now apply selected_denied.
  - rewrite isPermissionDenied_opaque. now apply selected_denied.
Qed.

Lemma isPermissionDenied_truthy (error : thrown) (v : value) :
  isPermissionDenied error = Returns v ->
  (truthy v = true <-> deniedWhenCodeFalsy error).
Proof.
  intros Hv. split.
  - intros Htruthy.
    assert (Hselected : forall code message,
              (let selected := if truthy code then code else message in
               if truthy selected
               then match selected with
                    | Str s =>
                        Returns (Bool (equalsIgnoringCase s "permission_denied"))
                    | _ => Throws (TypeError "code.toLowerCase is not a function")
                    end
               else Returns selected) = Returns v ->
              valueEqualsIgnoringCase (if truthy code then code else message)
                "permission_denied").
    { intros code message. cbn zeta.
      destruct (truthy (if truthy code then code else message)) eqn:Hsel.
      - destruct (if truthy code then code else message); try discriminate.
        intros [= <-]. cbn [truthy] in Htruthy. exact Htruthy.
      - intros [= <-]. congruence. }
    destruct error as [| | code message text | code message]; try discriminate.
    + rewrite isPermissionDenied_object in Hv. exact (Hselected _ _ Hv).
    + rewrite isPermissionDenied_opaque in Hv. exact (Hselected _ _ Hv).
  - intros Hdenied. rewrite (isPermissionDenied_denied _ Hdenied) in Hv.
    now injection Hv as <-.
Qed.

Lemma isPermissionDenied_cases (error : thrown) :
  (exists v, isPermissionDenied error = Returns v)
  \/ (exists e, isPermissionDenied error = Throws e).
Proof. destruct (isPermissionDenied error); eauto. Qed.

Lemma _simulateCall_classified (call : operation) (st st' : state)
    (e : thrown) :
  call (resetBuffer st) = (st', Throws e) ->
  (deniedWhenCodeFalsy e ->
   _simulateCall call st =
   (st', Returns (Some (arr_join (String "010" "")
                          (simulationConsoleLogs st')))))
  /\ (classifierThrows e ->
      exists e', _simulateCall call st = (st', Throws e'))
  /\ (forall text,
        ~ deniedWhenCodeFalsy e ->
        ~ classifierThrows e ->
        render e = Returns text ->
        _simulateCall call st =
        (st', Returns (Some ("Got a different error in simulation: "
                             +:+ text))))
  /\ (forall e',
        ~ deniedWhenCodeFalsy e ->
        ~ classifierThrows e ->
        render e = Throws e' ->
        _simulateCall call st = (st', Throws e')).
Proof.
  intros Hcall. rewrite (_simulateCall_throws _ _ _ _ Hcall).
  assert (Hother : ~ deniedWhenCodeFalsy e -> ~ classifierThrows e ->
                   exists v, isPermissionDenied e = Returns v
                             /\ truthy v = false).
  { intros Hnot Hreturns.
    destruct (isPermissionDenied_cases e) as [[v Hv] | Hthrows].
    - exists v. split; [exact Hv |].
      destruct (truthy v) eqn:Htruthy; [| reflexivity].
      exfalso. now apply Hnot, (isPermissionDenied_truthy _ _ Hv).
    - exfalso. now apply Hreturns, isPermissionDenied_throws. }
  split; [| split; [| split]].
  - intros Hdenied. now rewrite (isPermissionDenied_denied _ Hdenied).
  - intros Hthrows. apply isPermissionDenied_throws in Hthrows as [e' ->].
    eauto.
  - intros text Hnot Hreturns Htext.
    destruct (Hother Hnot Hreturns) as (v & -> & ->). now rewrite Htext.
  - intros e' Hnot Hreturns Htext.
    destruct (Hother Hnot Hreturns) as (v & -> & ->). now rewrite Htext.
Qed.

(** X12.  A call that fails is classified by its error alone: the trace of
    the call is the joined buffer exactly for a permission-denied error
    (code or, for a falsy code, message equal to [permission_denied]
    whatever the case of the letters); it is the line
    ['Got a different error in simulation: ...'] for any other error the
    classifier accepts and that has a string conversion; an error on
    which the classifier throws makes [_simulateCall] throw, and so does
    an error of the second kind that has no string conversion. *)
Theorem X12_failed_call_classified (call : operation) (st st' : state)
    (e : thrown) :
  call (resetBuffer st) = (st', Throws e) ->
  (deniedWhenCodeFalsy e ->
   _simulateCall call st =
   (st', Returns (Some (arr_join (String "010" "")
                          (simulationConsoleLogs st')))))
  /\ (classifierThrows e ->
      exists e', _simulateCall call st = (st', Throws e'))
  /\ (forall text,
        ~ deniedWhenCodeFalsy e ->
        ~ classifierThrows e ->
        render e = Returns text ->
        _simulateCall call st =
        (st', Returns (Some ("Got a different error in simulation: "
                             +:+ text))))
  /\ (forall e',
        ~ deniedWhenCodeFalsy e ->
        ~ classifierThrows e ->
        render e = Throws e' ->
        _simulateCall call st = (st', Throws e')).
Proof. apply _simulateCall_classified. Qed.

Lemma X12_failed_call_classified_witness :
  _simulateCall
    (emitting ["FIREBASE: Attempt to write /a"; "FIREBASE:   /a:.write: false";
               "FIREBASE:   => false"]
       (Throws (ThrownObject Undefined (Str "Permission_Denied")
                  "Error: Permission_Denied")))
    (State (Array [Some " read /old"] None) (Some 0))
  = (State (Array [Some "Attempt to write /a"; Some " ✗ write /a"] None) None,
     Returns (Some ("Attempt to write /a" +:+ String "010" " ✗ write /a"))).
Proof.
  refine (proj1 (X12_failed_call_classified _
                   (State (Array [Some " read /old"] None) (Some 0))
                   (State (Array [Some "Attempt to write /a";
                                  Some " ✗ write /a"] None) None)
                   (ThrownObject Undefined (Str "Permission_Denied")
                      "Error: Permission_Denied") _) _); reflexivity.
Defined.

(** ** Calls that log *)

(** Messages that all carry the marker reach the parser one by one. *)
Lemma emitting_marked (messages : list string) (ending : result value)
    (st st' : state) :
  Forall (fun message => hasMarker message = true) messages ->
  consume messages st = Returns st' ->
  emitting messages ending st = (st', ending).
Proof.
  revert st. induction messages as [| message messages IH]; intros st Hall Hrun.
  - injection Hrun as <-. reflexivity.
  - apply Forall_cons in Hall as [Hmarker Hall].
    cbn [emitting consume] in *. rewrite Hmarker.
    unfold mbind, result_bind in Hrun.
    destruct (processTraceLine message st) as [st1 |]; [| discriminate].
    now apply IH.
Qed.

(** A call that logs is the console filter run on its messages. *)
Lemma emitting_through_filter (messages : list string) (ending : result value)
    (st : state) (out : list (list argument)) (w : world) :
  logAll (Filter Runtime) (map (fun message => [Some message]) messages)
    (World out st) = Returns w ->
  emitting messages ending st = (parser w, ending).
Proof.
  revert st out. induction messages as [| message messages IH];
    intros st out Hrun.
  - injection Hrun as <-. reflexivity.
  - cbn [map logAll callLog emitting] in *.
    change (joinArguments [Some message]) with message in Hrun.
    destruct (hasMarker message); cbn [negb] in Hrun.
    + unfold mbind at 1 2, result_bind at 1 2 in Hrun. cbn [parser printed] in Hrun.
      destruct (processTraceLine message st) as [st1 |]; [| discriminate].
      exact (IH _ _ Hrun).
    + unfold mbind at 1, result_bind at 1 in Hrun. cbn [parser printed] in Hrun.
      exact (IH _ _ Hrun).
Qed.

(** ** Requests *)

Lemma callTraces_all_return (calls : list operation) :
  Forall (fun call : operation =>
            forall st, exists st' v, call st = (st', Returns v)) calls ->
  forall st, exists st',
    callTraces calls st = (st', Returns (map (fun _ => None) calls)).
Proof.
  induction calls as [| call calls IH]; intros Hall st.
  - exists st. reflexivity.
  - apply Forall_cons in Hall as [Hcall Hall].
    destruct (Hcall (resetBuffer st)) as (st1 & v & Hrun).
    destruct (IH Hall st1) as (st2 & Hrest).
    exists st2. cbn [callTraces map]. unfold bind.
    rewrite (_simulateCall_returns _ _ _ _ Hrun), Hrest. reflexivity.
Qed.

Lemma contributed_none {A} (xs : list A) :
  contributed (map (fun _ => None) xs) = [].
Proof. induction xs as [| x xs IH]; [reflexivity | exact IH]. Qed.

(** X13.  A request whose calls all go through reproduces nothing: once
    the identity is authenticated, if no call of the request fails, the
    request being empty or not, the result is the string
    ['Unable to reproduce error in simulation']. *)
Theorem X13_no_failure_nothing_reproduced
    (unauth authWithCustomToken : operation) (calls : list operation)
    (st st1 st2 : state) (v1 v2 : value) :
  unauth st = (st1, Returns v1) ->
  authWithCustomToken st1 = (st2, Returns v2) ->
  Forall (fun call : operation =>
            forall st, exists st' v, call st = (st', Returns v)) calls ->
  exists st3,
    _simulateCalls unauth authWithCustomToken calls st =
    (st3, Returns "Unable to reproduce error in simulation").
Proof.
  intros H1 H2 Hall.
  destruct (callTraces_all_return calls Hall st2) as (st3 & H3).
  exists st3. rewrite (_simulateCalls_all_executed _ _ _ _ _ _ _ _ _ _ H1 H2 H3).
  now rewrite contributed_none.
Qed.

Lemma X13_no_failure_nothing_reproduced_witness :
  exists st3,
    _simulateCalls (ret Undefined) (ret Undefined)
      [ emitting ["FIREBASE: Attempt to read /a"; "FIREBASE:   /a:.read: true";
                  "FIREBASE:   => true"]
          (Returns Undefined);
        ret (Str "snapshot") ]
      initial
    = (st3, Returns "Unable to reproduce error in simulation").
Proof.
  refine (X13_no_failure_nothing_reproduced _ _ _ initial initial initial
            Undefined Undefined eq_refl eq_refl _).
  repeat constructor.
  - intros st.
    assert (Hlines : exists st',
              consume ["FIREBASE: Attempt to read /a";
                       "FIREBASE:   /a:.read: true"; "FIREBASE:   => true"] st
              = Returns st').
    { cbn [consume].
      rewrite (processTraceLine_top "FIREBASE: Attempt to read /a" st eq_refl).
      unfold mbind at 1, result_bind at 1.
      change (st' ← processTraceLine "FIREBASE:   /a:.read: true" ?s;
              st'' ← processTraceLine "FIREBASE:   => true" st'; Returns st'')
        with (consume ("FIREBASE:   /a:.read: true"
                       :: [] ++ ["FIREBASE:   => true"]) s).
      rewrite (consume_check_outcome "FIREBASE:   /a:.read: true" []
                 "FIREBASE:   => true" true _ eq_refl (Forall_nil_2 _) eq_refl).
      eauto. }
    destruct Hlines as [st' Hlines]. exists st', Undefined.
    apply emitting_marked; [repeat constructor | exact Hlines].
  - intros st. exists st, (Str "snapshot"). reflexivity.
Defined.

Lemma append_nonempty (a b : string) (c : ascii) :
  String.eqb (a +:+ String c b) "" = false.
Proof. destruct a; reflexivity. Qed.

(** X14.  End to end.  A request of one call that is denied after the
    client has logged, through the console filter and each with the
    marker, an ordinary top-level line, a rule-check line, any number of
    rule-location lines and the outcome [false] returns the trace of that
    call: the top-level line, the check marked [" ✗"] and the location
    lines, one per line; neither the buffer nor the cursor left by what
    ran before shows in it. *)
Theorem X14_denied_call_returns_its_trace
    (unauth authWithCustomToken : operation) (st st1 st2 : state)
    (v1 v2 : value) (top check : string) (locations : list string)
    (out : string) (e : thrown) :
  unauth st = (st1, Returns v1) ->
  authWithCustomToken st1 = (st2, Returns v2) ->
  Forall (fun message => hasMarker message = true)
    (top :: check :: locations ++ [out]) ->
  isTopLine top = true ->
  isCheckLine check = true ->
  Forall (fun line => isLocationLine line = true) locations ->
  outcomeOf out = Some false ->
  deniedWhenCodeFalsy e ->
  _simulateCalls unauth authWithCustomToken
    [emitting (top :: check :: locations ++ [out]) (Throws e)] st
  = (State (Array (Some (entryOf top) :: Some (" ✗" +:+ entryOf check)
                   :: map locationEntry locations) None) None,
     Returns
       (entryOf top +:+ String "010" ""
        +:+ join (String "010" "")
              ((" ✗" +:+ entryOf check)
               :: map (fun line => "   " +:+ entryOf line) locations))).
Proof.
  intros H1 H2 Hmarked Htop Hcheck Hlocations Hout Hdenied.
  set (st3 := State (Array (Some (entryOf top) :: Some (" ✗" +:+ entryOf check)
                            :: map locationEntry locations) None) None).
  assert (Hlines : consume (top :: check :: locations ++ [out]) (resetBuffer st2)
                   = Returns st3).
  { assert (Hempty : settledEntries (resetBuffer st2) = []).
    { unfold settledEntries, atLastSlot, resetBuffer, contents, arr_length.
      cbn [lastTestIndex simulationConsoleLogs elems empty length].
      destruct (lastTestIndex st2); reflexivity. }
    cbn [consume]. rewrite (processTraceLine_top _ _ Htop), Hempty.
    unfold mbind at 1, result_bind at 1.
    change (st' ← processTraceLine check ?s; consume (locations ++ [out]) st')
      with (consume (check :: locations ++ [out]) s).
    rewrite (consume_check_outcome _ _ _ _ _ Hcheck Hlocations Hout).
    reflexivity. }
  assert (Hcall : emitting (top :: check :: locations ++ [out]) (Throws e)
                    (resetBuffer st2) = (st3, Throws e))
    by (now apply emitting_marked).
  assert (Hjoin : arr_join (String "010" "") (simulationConsoleLogs st3)
                  = entryOf top +:+ String "010" ""
                    +:+ join (String "010" "")
                          ((" ✗" +:+ entryOf check)
                           :: map (fun line => "   " +:+ entryOf line) locations)).
  { unfold arr_join, st3. cbn [simulationConsoleLogs elems map default from_option id join].
    unfold locationEntry. rewrite map_map. cbn [default from_option id].
    reflexivity. }
  assert (Htraces : callTraces
                      [emitting (top :: check :: locations ++ [out]) (Throws e)] st2
                    = (st3, Returns [Some (arr_join (String "010" "")
                                             (simulationConsoleLogs st3))])).
  { cbn [callTraces]. unfold bind.
    rewrite (proj1 (_simulateCall_classified _ _ _ _ Hcall) Hdenied).
    reflexivity. }
  rewrite (_simulateCalls_all_executed _ _ _ _ _ _ _ _ _ _ H1 H2 Htraces).
  rewrite Hjoin. unfold contributed. cbn [omap list_omap truthyTrace].
  set (rest := join _ _).
  change (String "010" "" +:+ rest) with (String "010" rest).
  rewrite append_nonempty. reflexivity.
Qed.

Lemma X14_denied_call_returns_its_trace_witness :
  _simulateCalls (ret Undefined) (ret Undefined)
    [emitting ("FIREBASE: Attempt to write /a"
               :: "FIREBASE:   /a:.write: auth != null"
               :: ["FIREBASE: 1:1: auth != null"] ++ ["FIREBASE:   => false"])
       (Throws (ThrownObject (Str "PERMISSION_DENIED") Undefined
                  "Error: PERMISSION_DENIED"))]
    (State (Array [Some " read /old"] None) (Some 0))
  = (State (Array [Some "Attempt to write /a"; Some " ✗ write /a";
                   Some "   1:1: auth != null"] None) None,
     Returns
       ("Attempt to write /a" +:+ String "010" " ✗ write /a"
        +:+ String "010" "   1:1: auth != null")).
Proof.
  refine (X14_denied_call_returns_its_trace
            (ret Undefined) (ret Undefined)
            (State (Array [Some " read /old"] None) (Some 0))
            (State (Array [Some " read /old"] None) (Some 0))
            (State (Array [Some " read /old"] None) (Some 0))
            Undefined Undefined
            "FIREBASE: Attempt to write /a"
            "FIREBASE:   /a:.write: auth != null"
            ["FIREBASE: 1:1: auth != null"] "FIREBASE:   => false"
            (ThrownObject (Str "PERMISSION_DENIED") Undefined
               "Error: PERMISSION_DENIED")
            eq_refl eq_refl _ eq_refl eq_refl _ eq_refl eq_refl);
    repeat constructor.
Defined.

(** ** References outside the database, and tasks that hang *)

Lemma submitAll_app (databaseUrl : string)
    (calls calls' : list (nat * string * task)) (q : promise) :
  submitAll databaseUrl (calls ++ calls') q =
  let '(ps, q1) := submitAll databaseUrl calls q in
  let '(ps', q2) := submitAll databaseUrl calls' q1 in
  ((ps ++ ps')%list, q2).
Proof.
  revert q. induction calls as [| [[now ref] f] calls IH]; intros q.
  - cbn [app submitAll]. now destruct (submitAll databaseUrl calls' q).
  - cbn [app submitAll].
    destruct (_simulate databaseUrl now ref f q) as [p q1]. rewrite IH.
    destruct (submitAll databaseUrl calls q1) as [ps q2].
    now destruct (submitAll databaseUrl calls' q2).
Qed.

(** X15.  A reference outside the database never enters the queue: the
    call rejects at once with the ['Ref not in database'] error, its task
    is not run, and the calls made before and after it get the promises
    they would get without it. *)
Theorem X15_foreign_reference_stays_out (databaseUrl : string)
    (calls calls' : list (nat * string * task)) (now : nat) (ref : string)
    (f : task) (q q1 q2 : promise) (ps ps' : list promise) :
  startsWith ref databaseUrl = false ->
  submitAll databaseUrl calls q = (ps, q1) ->
  submitAll databaseUrl calls' q1 = (ps', q2) ->
  submitAll databaseUrl (calls ++ (now, ref, f) :: calls') q =
    ((ps
      ++ Some (now,
               Rejected
                 (ThrownObject Undefined
                    (Str ("Ref not in database " +:+ databaseUrl +:+ ": "
                          +:+ ref))
                    ("Error: " +:+ "Ref not in database " +:+ databaseUrl
                     +:+ ": " +:+ ref)))
      :: ps')%list,
     q2)
  /\ submitAll databaseUrl (calls ++ calls') q = ((ps ++ ps')%list, q2).
Proof.
  intros Href Hcalls Hcalls'. rewrite !submitAll_app, Hcalls. split.
  - cbn [submitAll]. unfold _simulate. rewrite Href. cbn [negb].
    now rewrite Hcalls'.
  - now rewrite Hcalls'.
Qed.

Lemma X15_foreign_reference_stays_out_witness :
  submitAll "https://db/"
    ([(1, "https://db/a", fun s => Some (s + 5, Fulfilled (Str "a")))]
     ++ (2, "https://other/x", fun s => None)
     :: [(3, "https://db/b", fun s => Some (s + 1, Fulfilled (Str "b")))])
    resolve
  = ([Some (6, Fulfilled (Str "a"));
      Some (2, Rejected
                 (ThrownObject Undefined
                    (Str "Ref not in database https://db/: https://other/x")
                    "Error: Ref not in database https://db/: https://other/x"));
      Some (7, Fulfilled (Str "b"))],
     Some (7, Fulfilled (Str "b"))).
Proof.
  exact (proj1 (X15_foreign_reference_stays_out "https://db/"
                 [(1, "https://db/a", fun s => Some (s + 5, Fulfilled (Str "a")))]
                 [(3, "https://db/b", fun s => Some (s + 1, Fulfilled (Str "b")))]
                 2 "https://other/x" (fun s => None) resolve
                 (Some (6, Fulfilled (Str "a"))) (Some (7, Fulfilled (Str "b")))
                 [Some (6, Fulfilled (Str "a"))] [Some (7, Fulfilled (Str "b"))]
                 eq_refl eq_refl eq_refl)).
Defined.

Lemma submitAll_pending (databaseUrl : string)
    (calls : list (nat * string * task)) :
  Forall (fun c => startsWith (snd (fst c)) databaseUrl = true) calls ->
  submitAll databaseUrl calls None = (map (fun _ => None) calls, None).
Proof.
  induction calls as [| [[now ref] f] calls IH]; intros Hrefs; [reflexivity |].
  apply Forall_cons in Hrefs as [Href Hrefs]. cbn [fst snd] in Href.
  cbn [submitAll map]. rewrite (_simulate_on_pending _ _ _ _ Href).
  now rewrite (IH Hrefs).
Qed.

Lemma lookup_all_pending {A} (l : list A) (j : nat) :
  j < length l -> map (fun _ => (None : promise)) l !! j = Some None.
Proof.
  revert j. induction l as [| a l IH]; intros [| j] H; cbn in H; try lia.
  - reflexivity.
  - cbn. apply IH. lia.
Qed.

(** X16.  A task that hangs stalls the queue: if the promise of one call
    never settles, the promise of every later call on a reference of the
    database never settles either, and the queue stays pending. *)
Theorem X16_hung_task_stalls_queue (databaseUrl : string)
    (calls : list (nat * string * task)) (q q' : promise)
    (ps : list promise) (k : nat) :
  Forall (fun c => startsWith (snd (fst c)) databaseUrl = true) calls ->
  submitAll databaseUrl calls q = (ps, q') ->
  ps !! k = Some None ->
  q' = None
  /\ forall j, k < j -> j < length calls -> ps !! j = Some None.
Proof.
  revert q ps k. induction calls as [| [[now ref] f] calls IH];
    intros q ps k Hrefs Hrun Hk.
  - injection Hrun as <- <-. discriminate Hk.
  - apply Forall_cons in Hrefs as [Href Hrefs]. cbn [fst snd] in Href.
    cbn [submitAll] in Hrun. rewrite (_simulate_chains _ _ _ _ _ Href) in Hrun.
    destruct (submitAll databaseUrl calls _) as [ps1 q1] eqn:Hrest.
    injection Hrun as <- <-.
    destruct k as [| k].
    + cbn in Hk. injection Hk as Hk. rewrite Hk in Hrest.
      rewrite (submitAll_pending _ _ Hrefs) in Hrest.
      injection Hrest as <- <-. split; [reflexivity |].
      intros [| j] Hj Hlen; [lia |]. cbn in Hlen |- *.
      apply lookup_all_pending. lia.
    + cbn in Hk. destruct (IH _ _ _ Hrefs Hrest Hk) as [Hq Hlater].
      split; [exact Hq |].
      intros [| j] Hj Hlen; [lia |]. cbn in Hlen |- *.
      apply Hlater; lia.
Qed.

Lemma X16_hung_task_stalls_queue_witness :
  [Some (6, Fulfilled (Str "a")); None; None] !! 2 = Some (None : promise)
  /\ submitAll "https://db/"
       [(1, "https://db/a", fun s => Some (s + 5, Fulfilled (Str "a")));
        (2, "https://db/b", fun s => None);
        (3, "https://db/c", fun s => Some (s + 1, Fulfilled (Str "c")))]
       resolve
     = ([Some (6, Fulfilled (Str "a")); None; None], None).
Proof.
  split; [| reflexivity].
  refine (proj2 (X16_hung_task_stalls_queue "https://db/"
                   [(1, "https://db/a", fun s => Some (s + 5, Fulfilled (Str "a")));
                    (2, "https://db/b", fun s => None);
                    (3, "https://db/c", fun s => Some (s + 1, Fulfilled (Str "c")))]
                   resolve None
                   [Some (6, Fulfilled (Str "a")); None; None] 1
                   _ eq_refl eq_refl) 2 _ _).
  - repeat constructor.
  - lia.
  - cbn. lia.
Defined.

(** ** The child reference and the proxy *)

Lemma slice_strip_prefix (p s r : string) :
  strip_prefix p s = Some r -> Proxy.slice (String.length p) s = r.
Proof.
  revert s. induction p as [| a p IH]; intros s H.
  - now injection H as ->.
  - destruct s as [| b s]; [discriminate |]. cbn [strip_prefix] in H.
    destruct (Ascii.eqb a b); [| discriminate].
    cbn [String.length Proxy.slice]. now apply IH.
Qed.

(** X17.  For a reference of the database, the path handed to [child] is
    what follows the database URL in the reference: the URL and the path
    make up the reference again. *)
Theorem X17_childPath_completes_reference (databaseUrl ref : string) :
  startsWith ref databaseUrl = true ->
  databaseUrl +:+ Proxy.childPath databaseUrl ref = ref.
Proof.
  unfold startsWith, Proxy.childPath. intros H.
  destruct (strip_prefix databaseUrl ref) as [r |] eqn:Hr; [| discriminate].
  rewrite (slice_strip_prefix _ _ _ Hr). symmetry. now apply strip_prefix_inv.
Qed.

Lemma X17_childPath_completes_reference_witness :
  "https://db.firebaseio.com/"
  +:+ Proxy.childPath "https://db.firebaseio.com/"
        "https://db.firebaseio.com/users/alice"
  = "https://db.firebaseio.com/users/alice".
Proof.
  apply (X17_childPath_completes_reference "https://db.firebaseio.com/"
           "https://db.firebaseio.com/users/alice").
  reflexivity.
Defined.

(** X18.  The methods of the proxy never reach the simulator: each of
    [on], [once], [set], [update], [remove], [push] and [transaction]
    calls [this._simulator.simulate], and a [Simulator] has no property of
    that name (its method is [_simulate]); so, whatever the token, the
    reference and the value, the promise of the method rejects at once
    with a [TypeError], and nothing is simulated. *)
Theorem X18_proxy_methods_reject (data : Type)
    (invoke : string -> string -> string -> list (Proxy.CallSpec data)
              -> promise)
    (now : nat) (token ref : string) (v : data) :
  let rejected : promise :=
    Some (now,
          Rejected (TypeError "this._simulator.simulate is not a function")) in
  Proxy.property "simulate" Proxy.simulatorProperties = None
  /\ Proxy.property "_simulate" Proxy.simulatorProperties = Some Proxy.Method
  /\ Proxy.on data invoke now token ref = rejected
  /\ Proxy.once data invoke now token ref = rejected
  /\ Proxy.set data invoke now token ref v = rejected
  /\ Proxy.update data invoke now token ref v = rejected
  /\ Proxy.remove data invoke now token ref = rejected
  /\ Proxy.push data invoke now token ref v = rejected
  /\ Proxy.transaction data invoke now token ref v = rejected.
Proof. cbn zeta. repeat split; reflexivity. Qed.

(** ** Transcripts whose outcomes answer a rule check *)

(** A line that is no rule check, no rule-location line and no ordinary
    top-level line is an outcome line. *)
Lemma outcome_line (line : string) :
  isCheckLine line = false ->
  isLocationLine line = false ->
  isTopLine line = false ->
  exists outcome, outcomeOf line = Some outcome.
Proof.
  unfold isCheckLine, isLocationLine, isTopLine, outcomeOf, entryOf.
  destruct (isIndented _); cbn [andb negb].
  - destruct (matchOutcome _) as [outcome |]; [eauto | discriminate].
  - destruct (isNumbered _); discriminate.
Qed.

Lemma processTraceLine_outcome_at_entry (line : string) (outcome : bool)
    (st : state) :
  outcomeOf line = Some outcome ->
  cursorAtEntry st ->
  exists logs, processTraceLine line st = Returns (State logs None).
Proof.
  intros Hline (k & s & Hidx & Hentry).
  rewrite (processTraceLine_outcome _ _ _ Hline). cbn zeta.
  rewrite Hidx. cbn [arr_get]. rewrite Hentry.
  cbn [default from_option id]. unfold mbind, result_bind.
  destruct outcome; cbn [entryStartsWith]; eauto.
Qed.

Lemma consume_wellNested (lines : list string) :
  forall (pending : bool) (st : state),
    (pending = true -> cursorAtEntry st) ->
    wellNested pending lines = true ->
    exists st', consume lines st = Returns st'.
Proof.
  induction lines as [| line lines IH]; intros pending st Hpending Hnested.
  - exists st. reflexivity.
  - cbn [wellNested] in Hnested. cbn [consume]. unfold mbind, result_bind.
    destruct (isCheckLine line) eqn:Hcheck.
    + rewrite (processTraceLine_check _ _ Hcheck).
      apply (IH true); [| exact Hnested].
      intros _. exists (length (settledEntries st)), (entryOf line).
      split; [reflexivity |].
      cbn [simulationConsoleLogs elems]. apply lookup_pending.
    + destruct (isLocationLine line) eqn:Hlocation.
      * rewrite (processTraceLine_location _ _ Hlocation).
        apply (IH pending); [| exact Hnested].
        intros Htrue. destruct (Hpending Htrue) as (k & s & Hidx & Hentry).
        exists k, s. split; [exact Hidx |].
        cbn [simulationConsoleLogs elems]. unfold contents.
        now apply lookup_app_l_Some.
      * destruct (isTopLine line) eqn:Htop.
        -- rewrite (processTraceLine_top _ _ Htop).
           apply (IH false); [discriminate | exact Hnested].
        -- apply andb_true_iff in Hnested as [-> Hnested].
           destruct (outcome_line _ Hcheck Hlocation Htop) as [outcome Hout].
           destruct (processTraceLine_outcome_at_entry _ _ _ Hout
                       (Hpending eq_refl)) as [logs ->].
           apply (IH false); [discriminate | exact Hnested].
Qed.

(** X19.  A transcript in which every outcome line answers a rule check
    (it follows a rule-check line, with nothing but rule-location lines in
    between) is consumed without an exception from any state: whatever
    buffer and whatever cursor the calls before have left. *)
Theorem X19_well_nested_transcript_consumed (lines : list string) (st : state) :
  wellNested false lines = true ->
  exists st', consume lines st = Returns st'.
Proof. apply consume_wellNested. discriminate. Qed.

Lemma X19_well_nested_transcript_consumed_witness :
  exists st',
    consume ["FIREBASE: Attempt to read /a"; "FIREBASE:   /:.read: false";
             "FIREBASE:   => false"; "FIREBASE:   /a:.read: auth != null";
             "FIREBASE: 1:1: auth != null"; "FIREBASE:   => true"]
      (State empty (Some 7))
    = Returns st'.
Proof.
  apply (X19_well_nested_transcript_consumed
           ["FIREBASE: Attempt to read /a"; "FIREBASE:   /:.read: false";
            "FIREBASE:   => false"; "FIREBASE:   /a:.read: auth != null";
            "FIREBASE: 1:1: auth != null"; "FIREBASE:   => true"]
           (State empty (Some 7))).
  reflexivity.
Defined.

(** ** Two runs over one transcript, from any cursor *)

Lemma settlesCursor_kind (line : string) :
  settlesCursor line = true ->
  isCheckLine line = true \/ isTopLine line = true.
Proof.
  unfold settlesCursor, isCheckLine, isTopLine, entryOf. intros H.
  destruct (isIndented _); [left | right]; cbn [andb negb]; exact H.
Qed.

(** Two cursors that a transcript does not consult lead to the same
    entries. *)
Lemma consume_ignoresCursor (lines : list string) :
  forall (entries : list (option string)) (slot : option string)
         (c c' : option nat) (st1 : state),
    ignoresCursor c (length entries) lines = true ->
    ignoresCursor c' (length entries) lines = true ->
    consume lines (State (Array entries slot) c) = Returns st1 ->
    exists st2,
      consume lines (State (Array entries slot) c') = Returns st2
      /\ contents st2 = contents st1.
Proof.
  induction lines as [| line lines IH]; intros entries slot c c' st1 Hc Hc' Hrun.
  - injection Hrun as <-. eexists. split; reflexivity.
  - cbn [ignoresCursor] in Hc, Hc'. cbn [consume] in Hrun |- *.
    destruct (isLocationLine line) eqn:Hlocation.
    + rewrite (processTraceLine_location _ _ Hlocation) in Hrun.
      rewrite (processTraceLine_location _ _ Hlocation).
      unfold mbind, result_bind in Hrun |- *.
      cbn [contents simulationConsoleLogs elems undefined_slot lastTestIndex]
        in Hrun |- *.
      apply (IH _ _ c c' st1); [| | exact Hrun];
        rewrite length_app; cbn [length]; rewrite Nat.add_1_r; assumption.
    + apply andb_true_iff in Hc as [Hline Hc].
      apply andb_true_iff in Hc' as [_ Hc'].
      apply negb_true_iff in Hc, Hc'.
      assert (Hsettled : forall k : option nat,
                match k with Some j => S j =? length entries | None => false end
                = false ->
                settledEntries (State (Array entries slot) k) = entries).
      { intros k Hk. unfold settledEntries, atLastSlot, arr_length, contents.
        cbn [lastTestIndex simulationConsoleLogs elems]. now rewrite Hk. }
      exists st1. split; [| reflexivity].
      destruct (settlesCursor_kind _ Hline) as [Hkind | Hkind].
      * rewrite (processTraceLine_check _ _ Hkind) in Hrun.
        rewrite (processTraceLine_check _ _ Hkind).
        rewrite (Hsettled c Hc) in Hrun. now rewrite (Hsettled c' Hc').
      * rewrite (processTraceLine_top _ _ Hkind) in Hrun.
        rewrite (processTraceLine_top _ _ Hkind).
        rewrite (Hsettled c Hc) in Hrun. now rewrite (Hsettled c' Hc').
Qed.

(** C8, amended.  A sequence of raw diagnostic lines is consumed twice,
    each time on a buffer just reset, the first time with whatever cursor
    the parser has and the second time with the cursor the first run has
    left.  The two runs yield identical buffer contents whenever the first
    run leaves the cursor as it found it, or the sequence consults neither
    of the two cursors: it consists of rule-location lines only, or the
    first of its other lines is a rule-check line or an ordinary top-level
    line and neither cursor is the index of the rule-location entry just
    before it. *)
Theorem C8_second_run_identical (lines : list string) (c : option nat)
    (st1 : state) :
  consume lines (State empty c) = Returns st1 ->
  lastTestIndex st1 = c
  \/ (ignoresCursor c 0 lines = true
      /\ ignoresCursor (lastTestIndex st1) 0 lines = true) ->
  exists st2,
    consume lines (carriedOver st1) = Returns st2
    /\ contents st2 = contents st1.
Proof.
  intros Hrun [Hsame | [Hc Hc1]]; unfold carriedOver, resetBuffer.
  - rewrite Hsame. exists st1. now split.
  - exact (consume_ignoresCursor lines [] None c (lastTestIndex st1) st1
             Hc Hc1 Hrun).
Qed.

Lemma C8_second_run_identical_witness :
  consume ["2:5: auth != null"; "Attempt to write /a"; "  /a:.write:x"]
    (State empty (Some 7))
  = Returns (State (Array [Some "   2:5: auth != null";
                           Some "Attempt to write /a"; Some " write /a"] None)
                   (Some 2))
  /\ exists st2,
       consume ["2:5: auth != null"; "Attempt to write /a"; "  /a:.write:x"]
         (carriedOver
            (State (Array [Some "   2:5: auth != null";
                           Some "Attempt to write /a"; Some " write /a"] None)
                   (Some 2)))
       = Returns st2
       /\ contents st2
          = [Some "   2:5: auth != null"; Some "Attempt to write /a";
             Some " write /a"].
Proof.
  split; [reflexivity |].
  apply (C8_second_run_identical
           ["2:5: auth != null"; "Attempt to write /a"; "  /a:.write:x"]
           (Some 7)
           (State (Array [Some "   2:5: auth != null";
                          Some "Attempt to write /a"; Some " write /a"] None)
                  (Some 2))).
  - reflexivity.
  - right. split; reflexivity.
Defined.
